(** * obj-to-json: the OBJ to JSON converter

    A shallow embedding of [obj-to-json.py] and the properties of its
    conversion function [obj_to_dict] and of its entry point [main].

    Conventions of the embedding.
    - A Python [str] is a [string]; a character is an [ascii], read as the
      code point of the same number (U+0000 to U+00FF).  The iterable
      [obj_file] is the list of the lines it yields.
    - A Python [int] is a [Z]; a Python [float] is an IEEE 754 binary64
      value, a [spec_float] of precision 53 and maximal exponent 1024.
    - An exception that leaves a function is the [Raise] result of that
      function; [obj_to_dict] has no handler, so the first exception
      ends it. *)

From Stdlib Require Import ZArith NArith List Bool Ascii Lia.
From Stdlib Require Import Floats.SpecFloat.
From Stdlib Require Import Numbers.DecimalString.
From Stdlib Require Numbers.DecimalPos.
From stdpp Require Import base option list strings gmap.

Local Open Scope Z_scope.

(** ** Results of code that may raise *)

(** The exceptions that [obj_to_dict] can raise are all [ValueError]s: the
    two it raises itself (with the formatted message) and those of the
    builtins [float] and [int] (recorded with the argument the builtin was
    given; [int] raises one for an argument that is no integer literal and
    one for a literal of more digits than the interpreter converts). *)
Inductive exn : Type :=
| ValueError (msg : string)
| FloatValueError (arg : string)
| IntValueError (arg : string).

Inductive result (A : Type) : Type :=
| Return (a : A)
| Raise (e : exn).
Arguments Return {A} a.
Arguments Raise {A} e.

Definition bind {A B} (r : result A) (k : A -> result B) : result B :=
  match r with
  | Return a => k a
  | Raise e => Raise e
  end.

Notation "'let!' x ':=' r 'in' k" := (bind r (fun x => k))
  (at level 10, x name, r at level 100, k at level 200).

Definition succeeds {A} (r : result A) : Prop := exists a, r = Return a.

(** ** The [str] methods the converter uses *)

Module PyStr.

Definition code (c : ascii) : N := N_of_ascii c.

(** [str.isspace] on one character, for the code points below 256: the
    characters TAB to CR, FS to US, SPACE, NEL and NBSP. *)
Definition isspace (c : ascii) : bool :=
  let n := code c in
  ((9 <=? n) && (n <=? 13) || (28 <=? n) && (n <=? 32)
   || (n =? 133) || (n =? 160))%N.

Fixpoint lstrip (s : string) : string :=
  match s with
  | EmptyString => EmptyString
  | String c s' => if isspace c then lstrip s' else s
  end.

Fixpoint rstrip (s : string) : string :=
  match s with
  | EmptyString => EmptyString
  | String c s' =>
      match rstrip s' with
      | EmptyString => if isspace c then EmptyString else String c EmptyString
      | r => String c r
      end
  end.

(** [s.strip()] *)
Definition strip (s : string) : string := rstrip (lstrip s).

(** [s.split(sep, 1)[0]]: the part of [s] before the first [sep], all of
    [s] when [sep] does not occur. *)
Fixpoint split1_head (sep : ascii) (s : string) : string :=
  match s with
  | EmptyString => EmptyString
  | String c s' =>
      if Ascii.eqb c sep then EmptyString else String c (split1_head sep s')
  end.

(** [s.split()]: the maximal runs of characters that are not whitespace. *)
Definition cons_char (c : ascii) (ws : list string) : list string :=
  match ws with
  | [] => [String c EmptyString]
  | w :: ws' => String c w :: ws'
  end.

Fixpoint split (s : string) : list string :=
  match s with
  | EmptyString => []
  | String c s' =>
      if isspace c then split s'
      else match s' with
           | EmptyString => [String c EmptyString]
           | String c' _ =>
               if isspace c' then String c EmptyString :: split s'
               else cons_char c (split s')
           end
  end.

(** [s.find(ch)]: the index of the first [ch], [-1] when there is none. *)
Fixpoint find (ch : ascii) (s : string) : Z :=
  match s with
  | EmptyString => -1
  | String c s' =>
      if Ascii.eqb c ch then 0
      else let i := find ch s' in if i =? -1 then -1 else i + 1
  end.

Fixpoint take (n : nat) (s : string) : string :=
  match n, s with
  | S n', String c s' => String c (take n' s')
  | _, _ => EmptyString
  end.

(** [s[:stop]]: a negative [stop] counts from the end of [s]. *)
Definition slice_to (s : string) (stop : Z) : string :=
  if stop <? 0
  then take (Z.to_nat (Z.of_nat (String.length s) + stop)) s
  else take (Z.to_nat stop) s.

Fixpoint lower (s : string) : string :=
  match s with
  | EmptyString => EmptyString
  | String c s' =>
      let n := code c in
      String (if (65 <=? n) && (n <=? 90) then ascii_of_N (n + 32) else c)%N
             (lower s')
  end.

(** [str(n)] for an [int]. *)
Definition of_int (n : Z) : string := NilZero.string_of_int (Z.to_int n).

End PyStr.

(** ** The builtins [int] and [float] on a [str] *)

Module PyNum.

Definition is_digit (c : ascii) : bool :=
  let n := PyStr.code c in ((48 <=? n) && (n <=? 57))%N.

Definition digit_val (c : ascii) : N := (PyStr.code c - 48)%N.

(** Both builtins skip whitespace at the two ends of their argument: the
    C whitespace (TAB to CR, SPACE), and NEL and NBSP, which the
    conversion of a non-ASCII argument turns into spaces first. *)
Definition num_space (c : ascii) : bool :=
  let n := PyStr.code c in
  ((9 <=? n) && (n <=? 13) || (n =? 32) || (n =? 133) || (n =? 160))%N.

Fixpoint num_lstrip (s : string) : string :=
  match s with
  | EmptyString => EmptyString
  | String c s' => if num_space c then num_lstrip s' else s
  end.

Fixpoint num_rstrip (s : string) : string :=
  match s with
  | EmptyString => EmptyString
  | String c s' =>
      match num_rstrip s' with
      | EmptyString => if num_space c then EmptyString else String c EmptyString
      | r => String c r
      end
  end.

Definition num_strip (s : string) : string := num_rstrip (num_lstrip s).

(** An optional sign: [true] for [-]. *)
Definition take_sign (s : string) : bool * string :=
  match s with
  | String "-" s' => (true, s')
  | String "+" s' => (false, s')
  | _ => (false, s)
  end.

(** *** [int(s)], base ten *)

(** The digits of an integer literal, after its first digit: digits, each
    possibly preceded by one underscore; [acc] is the value read so far. *)
Fixpoint int_digits (acc : Z) (s : string) : option Z :=
  match s with
  | EmptyString => Some acc
  | String c s' =>
      if is_digit c then int_digits (10 * acc + Z.of_N (digit_val c)) s'
      else if Ascii.eqb c "_" then
        match s' with
        | String d s'' =>
            if is_digit d
            then int_digits (10 * acc + Z.of_N (digit_val d)) s''
            else None
        | EmptyString => None
        end
      else None
  end.

Definition int_literal (s : string) : option Z :=
  let '(neg, body) := take_sign s in
  match body with
  | String c s' =>
      if is_digit c then
        match int_digits (Z.of_N (digit_val c)) s' with
        | Some n => Some (if neg then - n else n)
        | None => None
        end
      else None
  | EmptyString => None
  end.

(** The limit the interpreter puts on the number of digits of an integer
    that is converted from or to a [str]: [sys.get_int_max_str_digits()],
    4300 unless the interpreter is started with another value. *)
Definition int_max_str_digits : nat := 4300.

(** The digits of a literal: every digit counts, leading zeros too; the
    sign, the underscores and the whitespace do not. *)
Fixpoint count_digits (s : string) : nat :=
  match s with
  | EmptyString => O
  | String c s' => if is_digit c then S (count_digits s') else count_digits s'
  end.

(** [int(s)]: [None] stands for the [ValueError] Python raises, for an
    argument that is no literal and for a literal of more digits than the
    limit. *)
Definition py_int (s : string) : option Z :=
  let literal := num_strip s in
  match int_literal literal with
  | Some n =>
      if (count_digits literal <=? int_max_str_digits)%nat then Some n else None
  | None => None
  end.

(** An integer that [str] and [repr] print: one of no more digits than the
    limit, the sign not counted. *)
Definition digits_fit (n : Z) : bool :=
  (String.length (PyStr.of_int (Z.abs n)) <=? int_max_str_digits)%nat.

(** [repr(n)] for an [int]: [None] stands for the [ValueError] Python
    raises beyond the limit. *)
Definition int_repr (n : Z) : option string :=
  if digits_fit n then Some (PyStr.of_int n) else None.

(** *** [float(s)] *)

Definition prec : Z := 53.
Definition emax : Z := 1024.

(** The double nearest to [m * 10^e] (ties to even), for [m > 0]. *)
Definition round_decimal (neg : bool) (m : positive) (e : Z) : spec_float :=
  if 0 <=? e
  then binary_round prec emax neg (m * Z.to_pos (10 ^ e))%positive 0
  else
    let '(q, e', l) :=
      SFdiv_core_binary prec emax (Zpos m) 0 (10 ^ (- e)) 0 in
    binary_round_aux prec emax neg q e' l.

Definition of_decimal (neg : bool) (m : N) (e : Z) : spec_float :=
  match m with
  | N0 => S754_zero neg
  | Npos p => round_decimal neg p e
  end.

(** A run of digits: the value read on top of [acc], how many digits were
    read on top of [cnt], and the rest of the string. *)
Fixpoint take_digits (acc : N) (cnt : nat) (s : string) : N * nat * string :=
  match s with
  | String c s' =>
      if is_digit c
      then take_digits (10 * acc + digit_val c)%N (S cnt) s'
      else (acc, cnt, s)
  | EmptyString => (acc, cnt, s)
  end.

(** Underscores may stand between two digits only; they are removed
    before the literal is read. *)
Fixpoint drop_underscores (prev : ascii) (s : string) : option string :=
  match s with
  | EmptyString => if Ascii.eqb prev "_" then None else Some EmptyString
  | String c s' =>
      if Ascii.eqb c "_" then
        if is_digit prev then drop_underscores c s' else None
      else if Ascii.eqb prev "_" && negb (is_digit c) then None
      else option_map (String c) (drop_underscores c s')
  end.

(** [inf], [infinity] and [nan], in any case, with an optional sign. *)
Definition inf_or_nan (s : string) : option spec_float :=
  let '(neg, body) := take_sign s in
  let w := PyStr.lower body in
  if String.eqb w "inf" || String.eqb w "infinity" then Some (S754_infinity neg)
  else if String.eqb w "nan" then Some S754_nan
  else None.

(** A decimal literal: digits with an optional point, at least one digit
    in all, and an optional exponent of at least one digit. *)
Definition decimal_literal (s : string) : option spec_float :=
  let '(neg, s1) := take_sign s in
  let '(ip, ni, s2) := take_digits 0 0 s1 in
  let '(m, nf, s3) :=
    match s2 with
    | String "." r => take_digits ip 0 r
    | _ => (ip, 0%nat, s2)
    end in
  if (ni + nf =? 0)%nat then None
  else
    match s3 with
    | EmptyString => Some (of_decimal neg m (- Z.of_nat nf))
    | String c r =>
        if Ascii.eqb c "e" || Ascii.eqb c "E" then
          let '(eneg, r1) := take_sign r in
          let '(ev, ne, r2) := take_digits 0 0 r1 in
          match ne, r2 with
          | S _, EmptyString =>
              let x := Z.of_N ev in
              Some (of_decimal neg m ((if eneg then - x else x) - Z.of_nat nf))
          | _, _ => None
          end
        else None
    end.

Definition float_literal (s : string) : option spec_float :=
  match drop_underscores "000" s with
  | None => None
  | Some s' =>
      match decimal_literal s' with
      | Some x => Some x
      | None => inf_or_nan s'
      end
  end.

(** [float(s)]: [None] stands for the [ValueError] Python raises. *)
Definition py_float (s : string) : option spec_float :=
  float_literal (num_strip s).

(** The floats of the integers, as [float(n)] gives them. *)
Definition of_Z (n : Z) : spec_float := binary_normalize prec emax n 0 false.

(** *** [repr(x)] for a [float]

    The shortest decimal numeral that [float] reads back as [x], the
    nearest to [x] when several of that length do, in the layout
    [float.__repr__] gives it. *)

(** [x * 10^s] as a fraction, for [x = p / q]. *)
Definition scaled (p q s : Z) : Z * Z :=
  if 0 <=? s then (p * 10 ^ s, q) else (p, q * 10 ^ (- s)).

Definition scaled_floor (p q s : Z) : Z :=
  let '(a, b) := scaled p q s in a / b.

(** The [k] with [10^(k-1) <= p/q < 10^k], from a first guess. *)
Fixpoint decimal_point (fuel : nat) (p q k : Z) : Z :=
  match fuel with
  | O => k
  | S fuel' =>
      let t := scaled_floor p q (1 - k) in
      if t <? 1 then decimal_point fuel' p q (k - 1)
      else if 10 <=? t then decimal_point fuel' p q (k + 1)
      else k
  end.

Definition reads_back (x : spec_float) (digits e : Z) : bool :=
  SFeqb (of_decimal false (Z.to_N digits) e) x.

(** The shortest digits for [x = p / q > 0] whose decimal point is at
    [k]: with [n] digits and more, [tries] lengths at most.  The result
    is the integer the digits spell and the power of ten it is scaled
    by. *)
Fixpoint shortest (tries : nat) (x : spec_float) (p q k n : Z) : Z * Z :=
  let '(a, b) := scaled p q (n - k) in
  let lo := a / b in
  let hi := lo + 1 in
  match tries with
  | O => (lo, k - n)
  | S tries' =>
      let ok_lo := reads_back x lo (k - n) in
      let ok_hi := reads_back x hi (k - n) in
      let r2 := 2 * (a mod b) in
      let up := (b <? r2) || ((b =? r2) && Z.odd lo) in
      if ok_lo && ok_hi then (if up then hi else lo, k - n)
      else if ok_lo then (lo, k - n)
      else if ok_hi then (hi, k - n)
      else shortest tries' x p q k (n + 1)
  end.

Fixpoint drop_zeros (fuel : nat) (digits e : Z) : Z * Z :=
  match fuel with
  | O => (digits, e)
  | S fuel' =>
      if (digits mod 10 =? 0) && negb (digits =? 0)
      then drop_zeros fuel' (digits / 10) (e + 1)
      else (digits, e)
  end.

Fixpoint zeros (n : nat) : string :=
  match n with
  | O => EmptyString
  | S n' => String "0" (zeros n')
  end.

Fixpoint drop (n : nat) (s : string) : string :=
  match n, s with
  | S n', String _ s' => drop n' s'
  | _, _ => s
  end.

(** The layout: [digits] is the digit string and [decpt] the place of
    the decimal point, counted from its left end. *)
Definition layout (digits : string) (decpt : Z) : string :=
  let nd := Z.of_nat (String.length digits) in
  if (-4 <? decpt) && (decpt <=? 16) then
    if decpt <=? 0 then "0." +:+ zeros (Z.to_nat (- decpt)) +:+ digits
    else if nd <=? decpt
         then digits +:+ zeros (Z.to_nat (decpt - nd)) +:+ ".0"
         else PyStr.take (Z.to_nat decpt) digits +:+ "."
                +:+ drop (Z.to_nat decpt) digits
  else
    let e := decpt - 1 in
    let a := PyStr.of_int (Z.abs e) in
    PyStr.take 1 digits
      +:+ (if 1 <? nd then "." +:+ drop 1 digits else EmptyString)
      +:+ "e" +:+ (if e <? 0 then "-" else "+")
      +:+ (if Z.abs e <? 10 then "0" +:+ a else a).

Definition sign_prefix (neg : bool) : string :=
  if neg then "-" else EmptyString.

Definition float_repr (x : spec_float) : string :=
  match x with
  | S754_nan => "nan"
  | S754_infinity neg => sign_prefix neg +:+ "inf"
  | S754_zero neg => sign_prefix neg +:+ "0.0"
  | S754_finite neg m e =>
      let p := if 0 <=? e then Zpos m * 2 ^ e else Zpos m in
      let q := if 0 <=? e then 1 else 2 ^ (- e) in
      let guess := (Z.log2 p - Z.log2 q) * 30103 / 100000 in
      let k := decimal_point 8 p q guess in
      let '(d, s) := shortest 17 (S754_finite false m e) p q k 1 in
      let '(d', s') := drop_zeros 20 d s in
      let digits := PyStr.of_int d' in
      sign_prefix neg
        +:+ layout digits (s' + Z.of_nat (String.length digits))
  end.

End PyNum.

(** ** The conversion function [obj_to_dict] *)

Module ObjToJson.

(** The dictionary [{"vertices": vertices, "indices": indices}] that
    [obj_to_dict] returns; while the loop runs, the same record holds the
    two local lists. *)
Record document : Type := Document {
  vertices : list spec_float;
  indices : list Z
}.

(** [data = line.strip().split('#', 1)[0].split()] *)
Definition tokens (line : string) : list string :=
  PyStr.split (PyStr.split1_head "#" (PyStr.strip line)).

(** The two messages, formatted with [len(data)-1]. *)
Definition vertex_message (n : Z) : string :=
  "All vertices must be 3D, at least one vertex is " +:+ PyStr.of_int n +:+ "D".

Definition face_message (n : Z) : string :=
  "All faces must be triangles, at least one face has "
    +:+ PyStr.of_int n +:+ " vertices".

Definition len {A} (l : list A) : Z := Z.of_nat (length l).

(** [float(v) for v in operands], as [vertices.extend] consumes it: the
    floats in order, or the error of the first operand that is not one.
    (The items that [extend] has already appended when that error is
    raised are lost with the local list.) *)
Fixpoint floats (operands : list string) : result (list spec_float) :=
  match operands with
  | [] => Return []
  | v :: rest =>
      match PyNum.py_float v with
      | None => Raise (FloatValueError v)
      | Some x => let! xs := floats rest in Return (x :: xs)
      end
  end.

(** The part of a face operand that is read: [vertex[:slash]] when
    [vertex.find('/')] is not [-1], else [vertex]. *)
Definition vertex_ref (vertex : string) : string :=
  let slash := PyStr.find "/" vertex in
  if negb (slash =? -1) then PyStr.slice_to vertex slash else vertex.

(** [int(vertex)-1] *)
Definition face_index (vertex : string) : result Z :=
  let vertex := vertex_ref vertex in
  match PyNum.py_int vertex with
  | None => Raise (IntValueError vertex)
  | Some n => Return (n - 1)
  end.

(** The inner loop [for vertex in data[1:]: ... indices.append(...)]. *)
Fixpoint face_loop (indices : list Z) (operands : list string)
  : result (list Z) :=
  match operands with
  | [] => Return indices
  | vertex :: rest =>
      let! i := face_index vertex in face_loop (indices ++ [i]) rest
  end.

(** One turn of the loop over the lines. *)
Definition process_data (d : document) (data : list string) : result document :=
  match data with
  | [] => Return d
  | keyword :: operands =>
      if String.eqb keyword "v" then
        if negb (len data =? 4)
        then Raise (ValueError (vertex_message (len data - 1)))
        else
          let! vs := floats operands in
          Return (Document (vertices d ++ vs) (indices d))
      else if String.eqb keyword "f" then
        if negb (len data =? 4)
        then Raise (ValueError (face_message (len data - 1)))
        else
          let! ixs := face_loop (indices d) operands in
          Return (Document (vertices d) ixs)
      else Return d
  end.

Definition process_line (d : document) (line : string) : result document :=
  process_data d (tokens line).

Fixpoint process_lines (d : document) (lines : list string) : result document :=
  match lines with
  | [] => Return d
  | line :: rest => let! d' := process_line d line in process_lines d' rest
  end.

Definition empty : document := Document [] [].

Definition obj_to_dict (obj_file : list string) : result document :=
  process_lines empty obj_file.

(** *** The properties the specification states of documents *)

(** What a face line adds to the index list: the indices of its
    operands in order, or the error of the first operand without one. *)
Fixpoint face_indices (operands : list string) : result (list Z) :=
  match operands with
  | [] => Return []
  | vertex :: rest =>
      let! i := face_index vertex in
      let! ixs := face_indices rest in
      Return (i :: ixs)
  end.

(** Both lists hold whole triples. *)
Definition whole_triples (d : document) : Prop :=
  len (vertices d) mod 3 = 0 /\ len (indices d) mod 3 = 0.

(** The number of vertices of a document, [len(vertices)/3]. *)
Definition vertex_count (d : document) : Z := len (vertices d) / 3.

(** Every index names a vertex of the document. *)
Definition indices_valid (d : document) : Prop :=
  Forall (fun i => 0 <= i <= vertex_count d - 1) (indices d).

(** The errors of [float] and [int], as opposed to the two format
    errors the converter raises itself. *)
Definition numeric_parse_error (e : exn) : Prop :=
  match e with
  | FloatValueError _ | IntValueError _ => True
  | ValueError _ => False
  end.

Definition is_finite (x : spec_float) : bool :=
  match x with
  | S754_zero _ | S754_finite _ _ _ => true
  | S754_infinity _ | S754_nan => false
  end.

End ObjToJson.

(** ** The entry point [main] *)

Module Main.
Import ObjToJson.

(** *** The file system and the standard streams *)

Inductive node : Type :=
| File (content : string)
| Directory.

Record world : Type := World {
  files : gmap string node;
  stdin : string;
  stdout : string
}.

(** How a run ends: normally, through [parser.error] (a file that cannot
    be opened), or with an exception that nothing catches. *)
Inductive outcome : Type :=
| Finished
| ArgumentError
| Uncaught (e : exn).

Definition exit_status (o : outcome) : Z :=
  match o with
  | Finished => 0
  | ArgumentError => 2
  | Uncaught _ => 1
  end.

(** What [argparse.FileType] returns: a standard stream for the argument
    [-], else the file opened at the path. *)
Inductive handle : Type :=
| Std
| Path (p : string).

(** [argparse.FileType('r')]: the path must name a file. *)
Definition open_r (arg : string) (w : world) : option handle :=
  if String.eqb arg "-" then Some Std
  else match files w !! arg with
       | Some (File _) => Some (Path arg)
       | _ => None
       end.

(** [argparse.FileType('w')]: the file is created, or emptied when it
    exists; a directory cannot be opened.  (Permissions and missing
    parent directories are not part of this model of the file system.) *)
Definition open_w (arg : string) (w : world) : option (handle * world) :=
  if String.eqb arg "-" then Some (Std, w)
  else match files w !! arg with
       | Some Directory => None
       | _ => Some (Path arg,
                    World (<[arg := File EmptyString]> (files w))
                          (stdin w) (stdout w))
       end.

Definition read (h : handle) (w : world) : string :=
  match h with
  | Std => stdin w
  | Path p => match files w !! p with
              | Some (File c) => c
              | _ => EmptyString
              end
  end.

Definition write (h : handle) (text : string) (w : world) : world :=
  match h with
  | Std => World (files w) (stdin w) (stdout w +:+ text)
  | Path p =>
      let old := match files w !! p with
                 | Some (File c) => c
                 | _ => EmptyString
                 end in
      World (<[p := File (old +:+ text)]> (files w)) (stdin w) (stdout w)
  end.

Definition LF : ascii := ascii_of_N 10.
Definition CR : ascii := ascii_of_N 13.

(** The lines a text file yields when iterated: each ends at a line feed,
    a carriage return or the pair of them, read as one line feed, which
    stays at the end of the line; the last line may lack it. *)
Fixpoint readlines (text : string) : list string :=
  match text with
  | EmptyString => []
  | String c rest =>
      if Ascii.eqb c LF then String LF EmptyString :: readlines rest
      else if Ascii.eqb c CR then
        String LF EmptyString ::
          match rest with
          | String c' rest' =>
              if Ascii.eqb c' LF then readlines rest' else readlines rest
          | EmptyString => []
          end
      else PyStr.cons_char c (readlines rest)
  end.

(** *** [json.dump] of the dictionary *)

Definition quoted (s : string) : string :=
  String (ascii_of_N 34) (s +:+ String (ascii_of_N 34) EmptyString).

(** The encoder's [floatstr], with [allow_nan] at its default. *)
Definition floatstr (x : spec_float) : string :=
  match x with
  | S754_nan => "NaN"
  | S754_infinity false => "Infinity"
  | S754_infinity true => "-Infinity"
  | _ => PyNum.float_repr x
  end.

Fixpoint join (sep : string) (items : list string) : string :=
  match items with
  | [] => EmptyString
  | [x] => x
  | x :: rest => x +:+ sep +:+ join sep rest
  end.

Definition array (items : list string) : string :=
  "[" +:+ join ", " items +:+ "]".

Definition dumps (d : document) : string :=
  "{" +:+ quoted "vertices" +:+ ": " +:+ array (map floatstr (vertices d))
      +:+ ", " +:+ quoted "indices" +:+ ": "
      +:+ array (map PyStr.of_int (indices d)) +:+ "}".

(** *** [json.dump], chunk by chunk

    [json.dump] writes the chunks the encoder yields as they come: of an
    array, the opening bracket with the first item, each further item with
    the separator before it, then the closing bracket; [[]] for an empty
    array.  An [int] is printed with [int.__repr__], which raises for an
    integer of too many digits: the writing ends there, with nothing of
    the chunk of that item written. *)

Definition repr_limit_error : exn :=
  ValueError "Exceeds the limit (4300 digits) for integer string conversion; use sys.set_int_max_str_digits() to increase the limit".

(** The text written of the items of an array, [None] being an item that
    cannot be printed, and whether all of it was written; [buf] is what
    stands before the next item. *)
Fixpoint array_chunks (buf : string) (items : list (option string))
  : string * bool :=
  match items with
  | [] => ("]", true)
  | Some x :: rest =>
      let '(text, ok) := array_chunks ", " rest in (buf +:+ x +:+ text, ok)
  | None :: _ => (EmptyString, false)
  end.

Definition array_written (items : list (option string)) : string * bool :=
  match items with
  | [] => ("[]", true)
  | _ :: _ => array_chunks "[" items
  end.

(** What [json.dump] writes of the dictionary, and the exception it ends
    with when an index cannot be printed. *)
Definition dump (d : document) : string * option exn :=
  let '(vs, _) := array_written (map (fun x => Some (floatstr x)) (vertices d)) in
  let '(ixs, ok) := array_written (map PyNum.int_repr (indices d)) in
  ("{" +:+ quoted "vertices" +:+ ": " +:+ vs
       +:+ ", " +:+ quoted "indices" +:+ ": "
       +:+ (if ok then ixs +:+ "}" else ixs),
   if ok then None else Some repr_limit_error).

(** *** [main], on its two positional arguments

    [parse_args] opens the two files, the input first; the conversion
    then reads the input, and [json.dump] writes its result.  What was
    written when an exception ends the run is in the output: the files
    are flushed when the interpreter exits. *)
Definition main (obj json : string) (w : world) : world * outcome :=
  match open_r obj w with
  | None => (w, ArgumentError)
  | Some input =>
      match open_w json w with
      | None => (w, ArgumentError)
      | Some (output, w1) =>
          match obj_to_dict (readlines (read input w1)) with
          | Raise e => (w1, Uncaught e)
          | Return d =>
              let '(text, error) := dump d in
              (write output text w1,
               match error with
               | None => Finished
               | Some e => Uncaught e
               end)
          end
      end
  end.

(** The world [w] but for the output, in which [text] was written after
    it was opened: the standard output for [-], else the file at the
    path, which holds [text] and nothing else. *)
Definition with_output (json text : string) (w : world) : world :=
  if String.eqb json "-"
  then World (files w) (stdin w) (stdout w +:+ text)
  else World (<[json := File text]> (files w)) (stdin w) (stdout w).

End Main.

(** ** Inputs, as the properties of the conversion speak of them *)

Module Input.
Import ObjToJson.

(** A line whose first token is [kw]. *)
Definition has_keyword (kw line : string) : bool :=
  match tokens line with
  | keyword :: _ => String.eqb keyword kw
  | [] => false
  end.

Fixpoint all_chars (p : ascii -> bool) (s : string) : bool :=
  match s with
  | EmptyString => true
  | String c s' => p c && all_chars p s'
  end.

(** A word: a string that is not empty and holds neither whitespace nor
    the comment sign. *)
Definition word_char (c : ascii) : bool :=
  negb (PyStr.isspace c) && negb (Ascii.eqb c "#").

Definition is_word (w : string) : bool :=
  match w with
  | EmptyString => false
  | String _ _ => all_chars word_char w
  end.

(** The text of a file whose lines each end with [term]. *)
Fixpoint terminated (term : string) (lines : list string) : string :=
  match lines with
  | [] => EmptyString
  | line :: rest => line +:+ term +:+ terminated term rest
  end.

(** The string of [n] times the character [c]. *)
Fixpoint repeated (c : ascii) (n : nat) : string :=
  match n with
  | O => EmptyString
  | S n' => String c (repeated c n')
  end.

(** A character that ends no line. *)
Definition line_char (c : ascii) : bool :=
  negb (Ascii.eqb c Main.LF) && negb (Ascii.eqb c Main.CR).

End Input.

(** * Properties of the conversion *)

Module ObjToJsonFacts.
Import ObjToJson.

(** ** The loop over the lines *)

Lemma bind_return {A B} (r : result A) (k : A -> result B) (b : B) :
  bind r k = Return b -> exists a, r = Return a /\ k a = Return b.
Proof. destruct r as [a|e]; simpl; [eauto | discriminate]. Qed.

Lemma process_lines_app (d : document) (pre post : list string) :
  process_lines d (pre ++ post) =
  (let! d' := process_lines d pre in process_lines d' post).
Proof.
  revert d. induction pre as [|line pre IH]; intros d; simpl; [reflexivity|].
  destruct (process_line d line) as [d1|e]; simpl; [apply IH | reflexivity].
Qed.

(** A line that raises ends the conversion with its exception, when the
    lines before it raise nothing. *)
Lemma process_lines_raise (d d' : document) (pre post : list string)
      (line : string) (e : exn) :
  process_lines d pre = Return d' ->
  process_line d' line = Raise e ->
  process_lines d (pre ++ line :: post) = Raise e.
Proof.
  intros Hpre Hline. rewrite process_lines_app, Hpre. simpl.
  now rewrite Hline.
Qed.

(** A line that raises whatever the document is makes every conversion
    that contains it fail. *)
Lemma process_lines_fail (lines : list string) (line : string) :
  In line lines ->
  (forall d, exists e, process_line d line = Raise e) ->
  forall d, exists e, process_lines d lines = Raise e.
Proof.
  intros Hin Hline. induction lines as [|l rest IH]; [destruct Hin|].
  intros d. simpl. destruct Hin as [->|Hin].
  - destruct (Hline d) as [e ->]. simpl. eauto.
  - destruct (process_line d l) as [d1|e]; simpl; [apply IH, Hin | eauto].
Qed.

(** A line that leaves the document as it is can be taken out. *)
Lemma process_lines_skip (d : document) (pre post : list string) (line : string) :
  (forall d', process_line d' line = Return d') ->
  process_lines d (pre ++ line :: post) = process_lines d (pre ++ post).
Proof.
  intros Hskip. rewrite !process_lines_app.
  destruct (process_lines d pre) as [d1|e]; simpl; [|reflexivity].
  now rewrite Hskip.
Qed.

(** ** Vertex lines *)

Lemma floats_length (operands : list string) (vs : list spec_float) :
  floats operands = Return vs -> length vs = length operands.
Proof.
  revert vs. induction operands as [|v rest IH]; intros vs; simpl.
  - intros [= <-]. reflexivity.
  - destruct (PyNum.py_float v) as [x|]; [|discriminate].
    destruct (floats rest) as [xs|e]; simpl; [|discriminate].
    intros [= <-]. simpl. f_equal. now apply IH.
Qed.

Lemma floats_raise (operands : list string) (v : string) :
  In v operands -> PyNum.py_float v = None ->
  exists arg, floats operands = Raise (FloatValueError arg)
              /\ In arg operands /\ PyNum.py_float arg = None.
Proof.
  intros Hin Hv. induction operands as [|o rest IH]; [destruct Hin|]. simpl.
  destruct (PyNum.py_float o) as [x|] eqn:Ho.
  - destruct Hin as [->|Hin]; [congruence|].
    destruct (IH Hin) as (arg & -> & Harg & Hnone). simpl. eauto.
  - exists o. auto.
Qed.

(** ** Face lines *)

Lemma face_loop_indices (indices : list Z) (operands : list string) :
  face_loop indices operands =
  (let! ixs := face_indices operands in Return (indices ++ ixs)).
Proof.
  revert indices. induction operands as [|v rest IH]; intros indices; simpl.
  - now rewrite app_nil_r.
  - destruct (face_index v) as [i|e]; simpl; [|reflexivity].
    rewrite IH. destruct (face_indices rest) as [ixs|e]; simpl; [|reflexivity].
    now rewrite <- app_assoc.
Qed.

Lemma face_indices_length (operands : list string) (ixs : list Z) :
  face_indices operands = Return ixs -> length ixs = length operands.
Proof.
  revert ixs. induction operands as [|v rest IH]; intros ixs; simpl.
  - intros [= <-]. reflexivity.
  - destruct (face_index v) as [i|e]; simpl; [|discriminate].
    destruct (face_indices rest) as [r|e]; simpl; [|discriminate].
    intros [= <-]. simpl. f_equal. now apply IH.
Qed.

(** Where an index comes from: an operand whose reference is one more. *)
Lemma face_indices_origin (operands : list string) (ixs : list Z) (i : Z) :
  face_indices operands = Return ixs -> In i ixs ->
  exists vertex n, In vertex operands
                   /\ PyNum.py_int (vertex_ref vertex) = Some n /\ i = n - 1.
Proof.
  revert ixs. induction operands as [|v rest IH]; intros ixs; simpl.
  - intros [= <-] [].
  - unfold face_index at 1.
    destruct (PyNum.py_int (vertex_ref v)) as [n|] eqn:Hn; simpl; [|discriminate].
    destruct (face_indices rest) as [r|e]; simpl; [|discriminate].
    intros [= <-] [<-|Hin].
    + exists v, n. auto.
    + destruct (IH r eq_refl Hin) as (v' & n' & Hv' & Hn' & ->).
      exists v', n'. auto.
Qed.

Lemma face_indices_raise (operands : list string) (v : string) :
  In v operands -> PyNum.py_int (vertex_ref v) = None ->
  exists arg, face_indices operands = Raise (IntValueError (vertex_ref arg))
              /\ In arg operands /\ PyNum.py_int (vertex_ref arg) = None.
Proof.
  intros Hin Hv. induction operands as [|o rest IH]; [destruct Hin|]. simpl.
  unfold face_index at 1.
  destruct (PyNum.py_int (vertex_ref o)) as [n|] eqn:Ho; simpl.
  - destruct Hin as [->|Hin]; [congruence|].
    destruct (IH Hin) as (arg & -> & Harg & Hnone). simpl. eauto.
  - exists o. auto.
Qed.

(** ** Tokens: the [strip] before the comment is cut changes nothing *)

Lemma hash_not_space (c : ascii) :
  Ascii.eqb c "#" = true -> PyStr.isspace c = false.
Proof. intros H. apply Ascii.eqb_eq in H. now subst. Qed.

Lemma split_lstrip (s : string) : PyStr.split (PyStr.lstrip s) = PyStr.split s.
Proof.
  induction s as [|c s IH]; [reflexivity|]. simpl.
  destruct (PyStr.isspace c) eqn:Hc; [exact IH|].
  simpl. now rewrite Hc.
Qed.

Lemma head_lstrip (s : string) :
  PyStr.split1_head "#" (PyStr.lstrip s) = PyStr.lstrip (PyStr.split1_head "#" s).
Proof.
  induction s as [|c s IH]; [reflexivity|]. simpl.
  destruct (Ascii.eqb c "#") eqn:Hh.
  - rewrite (hash_not_space c Hh). simpl. now rewrite Hh.
  - simpl. destruct (PyStr.isspace c) eqn:Hc; [exact IH|].
    simpl. now rewrite Hh.
Qed.

Lemma rstrip_first (s r : string) (c : ascii) :
  PyStr.rstrip s = String c r -> exists s', s = String c s'.
Proof.
  destruct s as [|c0 s]; simpl; [discriminate|].
  destruct (PyStr.rstrip s); [destruct (PyStr.isspace c0)|];
    intros [= <- _]; eauto.
Qed.

(** A string that [rstrip] empties holds whitespace only. *)
Lemma rstrip_empty (s : string) :
  PyStr.rstrip s = EmptyString ->
  PyStr.split s = [] /\ PyStr.split1_head "#" s = s
  /\ match s with String c _ => PyStr.isspace c = true | EmptyString => True end.
Proof.
  induction s as [|c s IH]; simpl; [auto|].
  destruct (PyStr.rstrip s) eqn:Hr; [|discriminate].
  destruct (PyStr.isspace c) eqn:Hc; [|discriminate].
  intros _. destruct (IH eq_refl) as (Hs & Hh & _).
  repeat split; [exact Hs|].
  destruct (Ascii.eqb c "#") eqn:Hh'.
  - rewrite (hash_not_space c Hh') in Hc. discriminate.
  - now rewrite Hh.
Qed.

Lemma split_cons (c : ascii) (s : string) :
  PyStr.split (String c s) =
  if PyStr.isspace c then PyStr.split s
  else match s with
       | EmptyString => [String c EmptyString]
       | String c' _ =>
           if PyStr.isspace c' then String c EmptyString :: PyStr.split s
           else PyStr.cons_char c (PyStr.split s)
       end.
Proof. reflexivity. Qed.

Lemma split_rstrip (s : string) : PyStr.split (PyStr.rstrip s) = PyStr.split s.
Proof.
  induction s as [|c s IH]; [reflexivity|].
  cbn [PyStr.rstrip]. destruct (PyStr.rstrip s) as [|c1 r] eqn:Hr.
  - destruct (rstrip_empty s Hr) as (Hs & _ & Hfirst).
    rewrite (split_cons c s). destruct (PyStr.isspace c) eqn:Hc.
    + now rewrite Hs.
    + rewrite split_cons, Hc.
      destruct s as [|c' s']; [reflexivity|]. now rewrite Hfirst, Hs.
  - destruct (rstrip_first s r c1 Hr) as [s' ->].
    rewrite (split_cons c (String c1 r)), (split_cons c (String c1 s')).
    now rewrite IH.
Qed.

Lemma head_cons (c : ascii) (s : string) :
  PyStr.split1_head "#" (String c s) =
  if Ascii.eqb c "#" then EmptyString else String c (PyStr.split1_head "#" s).
Proof. reflexivity. Qed.

Lemma rstrip_cons (c : ascii) (s : string) :
  PyStr.rstrip (String c s) =
  match PyStr.rstrip s with
  | EmptyString => if PyStr.isspace c then EmptyString else String c EmptyString
  | r => String c r
  end.
Proof. reflexivity. Qed.

Lemma head_rstrip (s : string) :
  PyStr.split1_head "#" (PyStr.rstrip s) = PyStr.split1_head "#" s
  \/ PyStr.split1_head "#" (PyStr.rstrip s) = PyStr.rstrip (PyStr.split1_head "#" s).
Proof.
  induction s as [|c s IH]; [now left|].
  rewrite rstrip_cons. destruct (PyStr.rstrip s) as [|c1 r] eqn:Hr.
  - right. destruct (rstrip_empty s Hr) as (_ & Hh & _).
    rewrite (head_cons c s), Hh. destruct (Ascii.eqb c "#") eqn:Hc.
    + rewrite (hash_not_space c Hc). simpl. now rewrite Hc.
    + rewrite rstrip_cons, Hr.
      destruct (PyStr.isspace c); simpl; [reflexivity|]. now rewrite Hc.
  - rewrite (head_cons c (String c1 r)), (head_cons c s).
    destruct (Ascii.eqb c "#") eqn:Hc; [now left|].
    destruct IH as [IH|IH]; [left; now rewrite IH|].
    rewrite IH, rstrip_cons.
    destruct (PyStr.rstrip (PyStr.split1_head "#" s)) eqn:Hrh; [|now right].
    destruct (PyStr.isspace c) eqn:Hsp; [|now right].
    left. f_equal.
    destruct (rstrip_first s r c1 Hr) as [s' ->].
    rewrite head_cons in IH |- *.
    destruct (Ascii.eqb c1 "#"); [reflexivity | discriminate].
Qed.

(** The tokens of a line are those of the part before its first [#]. *)
Lemma tokens_comment (line : string) :
  tokens line = PyStr.split (PyStr.split1_head "#" line).
Proof.
  unfold tokens, PyStr.strip.
  destruct (head_rstrip (PyStr.lstrip line)) as [H|H]; rewrite H.
  - now rewrite head_lstrip, split_lstrip.
  - now rewrite split_rstrip, head_lstrip, split_lstrip.
Qed.

(** ** One line *)

Lemma len_cons {A} (x : A) (l : list A) : len (x :: l) - 1 = len l.
Proof. unfold len. simpl length. lia. Qed.

Lemma len_four {A} (x : A) (l : list A) :
  (len (x :: l) =? 4) = (length l =? 3)%nat.
Proof.
  unfold len. simpl length.
  destruct (Nat.eqb_spec (length l) 3) as [->|Hne]; [reflexivity|].
  apply Z.eqb_neq. lia.
Qed.

Lemma process_vertex_data (d : document) (operands : list string) :
  process_data d ("v" :: operands) =
  if (length operands =? 3)%nat
  then let! vs := floats operands in
       Return (Document (vertices d ++ vs) (indices d))
  else Raise (ValueError (vertex_message (len operands))).
Proof.
  cbn [process_data]. change (String.eqb "v" "v") with true. cbv iota.
  rewrite len_four, len_cons. now destruct (length operands =? 3)%nat.
Qed.

Lemma process_face_data (d : document) (operands : list string) :
  process_data d ("f" :: operands) =
  if (length operands =? 3)%nat
  then let! ixs := face_indices operands in
       Return (Document (vertices d) (indices d ++ ixs))
  else Raise (ValueError (face_message (len operands))).
Proof.
  cbn [process_data]. change (String.eqb "f" "v") with false.
  change (String.eqb "f" "f") with true. cbv iota.
  rewrite len_four, len_cons. destruct (length operands =? 3)%nat; [|reflexivity].
  rewrite face_loop_indices.
  now destruct (face_indices operands).
Qed.

Lemma process_other_data (d : document) (keyword : string) (operands : list string) :
  keyword <> "v" -> keyword <> "f" ->
  process_data d (keyword :: operands) = Return d.
Proof.
  intros Hv Hf. cbn [process_data].
  apply String.eqb_neq in Hv, Hf. now rewrite Hv, Hf.
Qed.

(** A line that raises the same exception whatever the document is:
    the conversion raises it when it reaches the line, and fails in any
    case. *)
Lemma raising_line (line : string) (e : exn) (pre post : list string) :
  (forall d, process_line d line = Raise e) ->
  (succeeds (obj_to_dict pre) -> obj_to_dict (pre ++ line :: post) = Raise e)
  /\ exists e', obj_to_dict (pre ++ line :: post) = Raise e'.
Proof.
  intros Hline. split.
  - intros [d Hpre]. now apply process_lines_raise with d.
  - apply process_lines_fail with line; [apply in_elt | eauto].
Qed.

(** ** The worked example *)

(** C1: the three vertex lines of (0,0,0), (1,0,0), (0,1,0) and the face
    line of the references 1, 2, 3 convert to the document with the
    vertices [0,0,0,1,0,0,0,1,0] and the indices [0,1,2]; the
    coordinates are the floats of these integers.  This holds of the
    lines as such, of the lines a file of them yields, and with the
    coordinates written with a decimal point; the text [json.dump]
    writes for the document is the last part. *)
Theorem triangle_document :
  let triangle :=
    Document (map PyNum.of_Z [0; 0; 0; 1; 0; 0; 0; 1; 0]) [0; 1; 2] in
  let nl := String Main.LF EmptyString in
  obj_to_dict ["v 0 0 0"; "v 1 0 0"; "v 0 1 0"; "f 1 2 3"] = Return triangle
  /\ obj_to_dict
       (Main.readlines ("v 0 0 0" +:+ nl +:+ "v 1 0 0" +:+ nl
                          +:+ "v 0 1 0" +:+ nl +:+ "f 1 2 3" +:+ nl))
     = Return triangle
  /\ obj_to_dict ["v 0.0 0.0 0.0"; "v 1.0 0.0 0.0"; "v 0.0 1.0 0.0"; "f 1 2 3"]
     = Return triangle
  /\ Main.dumps triangle
     = "{" +:+ Main.quoted "vertices"
         +:+ ": [0.0, 0.0, 0.0, 1.0, 0.0, 0.0, 0.0, 1.0, 0.0], "
         +:+ Main.quoted "indices" +:+ ": [0, 1, 2]}".
Proof. repeat split; vm_compute; reflexivity. Qed.

(** ** Operand counts *)

(** C3: a line whose first token is [v] and that has not exactly three
    operands raises the error that names the 3D constraint and the
    number of operands the line has, whatever was read before; the
    conversion ends with this error when it reaches the line, and fails
    in any case. *)
Theorem vertex_operand_count
        (line : string) (operands pre post : list string) :
  tokens line = "v" :: operands ->
  length operands <> 3%nat ->
  let message :=
    "All vertices must be 3D, at least one vertex is "
      +:+ PyStr.of_int (Z.of_nat (length operands)) +:+ "D" in
  (forall d, process_line d line = Raise (ValueError message))
  /\ (succeeds (obj_to_dict pre) ->
      obj_to_dict (pre ++ line :: post) = Raise (ValueError message))
  /\ exists e, obj_to_dict (pre ++ line :: post) = Raise e.
Proof.
  intros Htok Hlen message.
  assert (Hline : forall d, process_line d line = Raise (ValueError message)).
  { intros d. unfold process_line. rewrite Htok, process_vertex_data.
    apply Nat.eqb_neq in Hlen. now rewrite Hlen. }
  split; [exact Hline | now apply raising_line].
Qed.

Lemma vertex_operand_count_witness :
  tokens "v 1.0 2.0" = ["v"; "1.0"; "2.0"]
  /\ length ["1.0"; "2.0"] <> 3%nat
  /\ obj_to_dict ["v 1.0 2.0"]
     = Raise (ValueError "All vertices must be 3D, at least one vertex is 2D").
Proof.
  split; [reflexivity|]. split; [discriminate|].
  refine (proj1 (proj2 (vertex_operand_count
                          "v 1.0 2.0" ["1.0"; "2.0"] [] [] eq_refl _)) _).
  - discriminate.
  - eexists. reflexivity.
Defined.

(** C4: a line whose first token is [f] and that has not exactly three
    operands raises the error that names the triangle constraint and the
    number of operands the line has, whatever was read before; the
    conversion ends with this error when it reaches the line, and fails
    in any case. *)
Theorem face_operand_count
        (line : string) (operands pre post : list string) :
  tokens line = "f" :: operands ->
  length operands <> 3%nat ->
  let message :=
    "All faces must be triangles, at least one face has "
      +:+ PyStr.of_int (Z.of_nat (length operands)) +:+ " vertices" in
  (forall d, process_line d line = Raise (ValueError message))
  /\ (succeeds (obj_to_dict pre) ->
      obj_to_dict (pre ++ line :: post) = Raise (ValueError message))
  /\ exists e, obj_to_dict (pre ++ line :: post) = Raise e.
Proof.
  intros Htok Hlen message.
  assert (Hline : forall d, process_line d line = Raise (ValueError message)).
  { intros d. unfold process_line. rewrite Htok, process_face_data.
    apply Nat.eqb_neq in Hlen. now rewrite Hlen. }
  split; [exact Hline | now apply raising_line].
Qed.

Lemma face_operand_count_witness :
  tokens "f 1 2 3 4" = ["f"; "1"; "2"; "3"; "4"]
  /\ length ["1"; "2"; "3"; "4"] <> 3%nat
  /\ obj_to_dict ["f 1 2 3 4"]
     = Raise (ValueError
                "All faces must be triangles, at least one face has 4 vertices").
Proof.
  split; [reflexivity|]. split; [discriminate|].
  refine (proj1 (proj2 (face_operand_count
                          "f 1 2 3 4" ["1"; "2"; "3"; "4"] [] [] eq_refl _)) _).
  - discriminate.
  - eexists. reflexivity.
Defined.

(** ** Lines that are passed over *)

(** C8: a line that is blank once everything from its first [#] on is
    cut, or whose first token then is neither [v] nor [f], leaves the
    two lists as they are and raises nothing; the conversion gives the
    same result with the line and without it. *)
Theorem ignored_line (line : string) (pre post : list string) :
  PyStr.split (PyStr.split1_head "#" line) = []
  \/ (exists keyword operands,
        PyStr.split (PyStr.split1_head "#" line) = keyword :: operands
        /\ keyword <> "v" /\ keyword <> "f") ->
  (forall d, process_line d line = Return d)
  /\ obj_to_dict (pre ++ line :: post) = obj_to_dict (pre ++ post).
Proof.
  intros Hline.
  assert (Hskip : forall d, process_line d line = Return d).
  { intros d. unfold process_line. rewrite tokens_comment.
    destruct Hline as [->|(keyword & operands & -> & Hv & Hf)];
      [reflexivity | now apply process_other_data]. }
  split; [exact Hskip | now apply process_lines_skip].
Qed.

Lemma ignored_line_witness :
  (PyStr.split (PyStr.split1_head "#" "vt 0.5 0.5 # texture") = []
   \/ (exists keyword operands,
         PyStr.split (PyStr.split1_head "#" "vt 0.5 0.5 # texture")
         = keyword :: operands
         /\ keyword <> "v" /\ keyword <> "f"))
  /\ obj_to_dict ["v 0 0 0"; "vt 0.5 0.5 # texture"; "f 1 1 1"]
     = obj_to_dict ["v 0 0 0"; "f 1 1 1"].
Proof.
  assert (H : PyStr.split (PyStr.split1_head "#" "vt 0.5 0.5 # texture") = []
              \/ (exists keyword operands,
                    PyStr.split (PyStr.split1_head "#" "vt 0.5 0.5 # texture")
                    = keyword :: operands
                    /\ keyword <> "v" /\ keyword <> "f")).
  { right. exists "vt", ["0.5"; "0.5"].
    split; [reflexivity|]. split; discriminate. }
  split; [exact H|].
  exact (proj2 (ignored_line "vt 0.5 0.5 # texture"
                             ["v 0 0 0"] ["f 1 1 1"] H)).
Defined.

(** ** Coordinates that are not finite *)

(** C10: [float] reads [nan], [inf] and [-Infinity] (and [-inf]), so the
    line [v nan inf -inf] is accepted and appends three values that are
    not finite to the vertex list. *)
Theorem non_finite_coordinates :
  PyNum.py_float "nan" = Some S754_nan
  /\ PyNum.py_float "inf" = Some (S754_infinity false)
  /\ PyNum.py_float "-inf" = Some (S754_infinity true)
  /\ PyNum.py_float "-Infinity" = Some (S754_infinity true)
  /\ (forall d,
        process_line d "v nan inf -inf"
        = Return (Document
                    (vertices d
                       ++ [S754_nan; S754_infinity false; S754_infinity true])
                    (indices d)))
  /\ obj_to_dict ["v nan inf -inf"]
     = Return (Document [S754_nan; S754_infinity false; S754_infinity true] [])
  /\ forallb is_finite [S754_nan; S754_infinity false; S754_infinity true]
     = false
  /\ existsb is_finite [S754_nan; S754_infinity false; S754_infinity true]
     = false.
Proof. repeat split. Qed.

(** ** The fields after a slash *)

Lemma find_head (ch : ascii) (s : string) :
  (PyStr.find ch s = -1 /\ PyStr.split1_head ch s = s)
  \/ (0 <= PyStr.find ch s
      /\ PyStr.take (Z.to_nat (PyStr.find ch s)) s = PyStr.split1_head ch s).
Proof.
  induction s as [|c s IH]; [now left|]. simpl.
  destruct (Ascii.eqb c ch); [right; split; [lia | reflexivity]|].
  destruct IH as [[Hf Hh]|[Hf Hh]].
  - left. now rewrite Hf, Hh.
  - right. destruct (Z.eqb_spec (PyStr.find ch s) (-1)) as [Heq|_]; [lia|].
    split; [lia|].
    replace (Z.to_nat (PyStr.find ch s + 1)) with (S (Z.to_nat (PyStr.find ch s)))
      by lia.
    simpl. now rewrite Hh.
Qed.

(** What is read of a face operand is what stands before its first
    slash. *)
Lemma vertex_ref_head (vertex : string) :
  vertex_ref vertex = PyStr.split1_head "/" vertex.
Proof.
  unfold vertex_ref.
  destruct (find_head "/" vertex) as [[Hf Hh]|[Hf Hh]].
  - now rewrite Hf, Hh.
  - destruct (Z.eqb_spec (PyStr.find "/" vertex) (-1)) as [Heq|_]; [lia|].
    simpl. unfold PyStr.slice_to.
    destruct (Z.ltb_spec (PyStr.find "/" vertex) 0) as [Hlt|_]; [lia|].
    exact Hh.
Qed.

Lemma head_append (ch : ascii) (a x : string) :
  PyStr.split1_head ch (a +:+ String ch x) = PyStr.split1_head ch a.
Proof.
  induction a as [|c a IH]; simpl.
  - now rewrite Ascii.eqb_refl.
  - destruct (Ascii.eqb c ch); [reflexivity | now rewrite IH].
Qed.

Lemma face_index_head (vertex : string) :
  face_index vertex =
  match PyNum.py_int (PyStr.split1_head "/" vertex) with
  | Some n => Return (n - 1)
  | None => Raise (IntValueError (PyStr.split1_head "/" vertex))
  end.
Proof. unfold face_index. cbv zeta. now rewrite vertex_ref_head. Qed.

Lemma face_index_fields (a x : string) :
  face_index (a +:+ "/" +:+ x) = face_index a.
Proof.
  rewrite !face_index_head.
  change (a +:+ "/" +:+ x) with (a +:+ String "/" x).
  now rewrite head_append.
Qed.

(** Case analysis on the next reference that [int] is asked to read. *)
Ltac case_int :=
  match goal with
  | |- context [PyNum.py_int ?s] =>
      destruct (PyNum.py_int s); cbn [bind]; [|reflexivity]
  end.

(** C2: of a face operand, what stands before the first slash is read as
    an integer, and that integer less one is appended; so a face line of
    the operands [a/xa], [b/xb], [c/xc], whatever the fields [xa], [xb],
    [xc] after the slash are, does what the face line of [a], [b], [c]
    does: the same indices appended, or the same error, and the same
    result of the conversion. *)
Theorem face_slash_fields
        (line1 line2 a b c xa xb xc : string) (pre post : list string) :
  tokens line1 = ["f"; a +:+ "/" +:+ xa; b +:+ "/" +:+ xb; c +:+ "/" +:+ xc] ->
  tokens line2 = ["f"; a; b; c] ->
  let index := fun operand : string =>
    match PyNum.py_int (PyStr.split1_head "/" operand) with
    | Some n => Return (n - 1)
    | None => Raise (IntValueError (PyStr.split1_head "/" operand))
    end in
  let appended := fun d : document =>
    let! ia := index a in
    let! ib := index b in
    let! ic := index c in
    Return (Document (vertices d) (indices d ++ [ia; ib; ic])) in
  (forall d, process_line d line1 = appended d)
  /\ (forall d, process_line d line2 = appended d)
  /\ obj_to_dict (pre ++ line1 :: post) = obj_to_dict (pre ++ line2 :: post).
Proof.
  intros H1 H2 index appended.
  assert (E1 : forall d, process_line d line1 = appended d).
  { intros d. unfold process_line. rewrite H1, process_face_data.
    cbn [length Nat.eqb face_indices]. rewrite !face_index_fields.
    rewrite !face_index_head. subst appended index. cbv beta.
    repeat case_int; reflexivity. }
  assert (E2 : forall d, process_line d line2 = appended d).
  { intros d. unfold process_line. rewrite H2, process_face_data.
    cbn [length Nat.eqb face_indices].
    rewrite !face_index_head. subst appended index. cbv beta.
    repeat case_int; reflexivity. }
  split; [exact E1|]. split; [exact E2|].
  unfold obj_to_dict. rewrite !process_lines_app.
  destruct (process_lines empty pre) as [d|e]; [|reflexivity].
  cbn [bind process_lines]. now rewrite E1, E2.
Qed.

Lemma face_slash_fields_witness :
  tokens "f 1/5/9 2/6/10 3/7/11"
  = ["f"; "1" +:+ "/" +:+ "5/9"; "2" +:+ "/" +:+ "6/10"; "3" +:+ "/" +:+ "7/11"]
  /\ tokens "f 1 2 3" = ["f"; "1"; "2"; "3"]
  /\ process_line empty "f 1/5/9 2/6/10 3/7/11" = Return (Document [] [0; 1; 2])
  /\ process_line empty "f 1 2 3" = Return (Document [] [0; 1; 2]).
Proof.
  split; [reflexivity|]. split; [reflexivity|].
  pose proof (face_slash_fields "f 1/5/9 2/6/10 3/7/11" "f 1 2 3"
                "1" "2" "3" "5/9" "6/10" "7/11" [] [] eq_refl eq_refl) as H.
  cbv zeta in H. destruct H as (H1 & H2 & _).
  split; [exact (H1 empty) | exact (H2 empty)].
Defined.

(** ** Invariants of the loop *)

(** What one line can do to the document. *)
Lemma process_line_cases (d d' : document) (line : string) :
  process_line d line = Return d' ->
  d' = d
  \/ (exists operands vs,
        tokens line = "v" :: operands /\ length operands = 3%nat
        /\ floats operands = Return vs
        /\ d' = Document (vertices d ++ vs) (indices d))
  \/ (exists operands ixs,
        tokens line = "f" :: operands /\ length operands = 3%nat
        /\ face_indices operands = Return ixs
        /\ d' = Document (vertices d) (indices d ++ ixs)).
Proof.
  unfold process_line. destruct (tokens line) as [|keyword operands].
  - intros [= <-]. now left.
  - destruct (String.eqb_spec keyword "v") as [->|Hv].
    + rewrite process_vertex_data.
      destruct (Nat.eqb_spec (length operands) 3) as [Hlen|_]; [|discriminate].
      intros H. apply bind_return in H. destruct H as (vs & Hvs & [= <-]).
      right. left. exists operands, vs. auto.
    + destruct (String.eqb_spec keyword "f") as [->|Hf].
      * rewrite process_face_data.
        destruct (Nat.eqb_spec (length operands) 3) as [Hlen|_]; [|discriminate].
        intros H. apply bind_return in H. destruct H as (ixs & Hixs & [= <-]).
        right. right. exists operands, ixs. auto.
      * rewrite process_other_data by assumption. intros [= <-]. now left.
Qed.

(** A property that every line preserves holds after any number of
    lines. *)
Lemma process_lines_invariant (P : document -> Prop) (lines : list string) :
  (forall d d' line,
      In line lines -> P d -> process_line d line = Return d' -> P d') ->
  forall d d', P d -> process_lines d lines = Return d' -> P d'.
Proof.
  induction lines as [|line rest IH]; intros Hstep d d' Hd; simpl.
  - now intros [= <-].
  - intros H. apply bind_return in H. destruct H as (d1 & H1 & Hrest).
    apply (IH (fun a b l Hl => Hstep a b l (or_intror Hl)) d1 d'); [|exact Hrest].
    now apply (Hstep d d1 line (or_introl eq_refl)).
Qed.

Lemma len_app {A} (l1 l2 : list A) : len (l1 ++ l2) = len l1 + len l2.
Proof. unfold len. rewrite length_app. lia. Qed.

Lemma whole_triples_step (d d' : document) (line : string) :
  whole_triples d -> process_line d line = Return d' -> whole_triples d'.
Proof.
  intros [Hv Hi] Hline.
  destruct (process_line_cases d d' line Hline)
    as [->|[(ops & vs & _ & Hlen & Hvs & ->)|(ops & ixs & _ & Hlen & Hixs & ->)]].
  - now split.
  - split; [|exact Hi]. simpl. rewrite len_app.
    apply floats_length in Hvs. unfold len at 2. rewrite Hvs, Hlen.
    rewrite Z.add_mod, Hv by lia. reflexivity.
  - split; [exact Hv|]. simpl. rewrite len_app.
    apply face_indices_length in Hixs. unfold len at 2. rewrite Hixs, Hlen.
    rewrite Z.add_mod, Hi by lia. reflexivity.
Qed.

(** C5: when the conversion succeeds, the lengths of the vertex list and
    of the index list of its document are multiples of 3, and so they
    are after each line: for every way of cutting the input in two, the
    lines before the cut convert to a document of which the same
    holds. *)
Theorem lists_hold_triples (pre post : list string) (doc : document) :
  obj_to_dict (pre ++ post) = Return doc ->
  (len (vertices doc) mod 3 = 0 /\ len (indices doc) mod 3 = 0)
  /\ exists d, obj_to_dict pre = Return d
               /\ len (vertices d) mod 3 = 0 /\ len (indices d) mod 3 = 0.
Proof.
  intros Hdoc.
  assert (Hinv : forall lines d, obj_to_dict lines = Return d -> whole_triples d).
  { intros lines d. unfold obj_to_dict.
    apply process_lines_invariant.
    - intros d0 d1 line _. apply whole_triples_step.
    - now split. }
  split; [exact (Hinv _ _ Hdoc)|].
  unfold obj_to_dict in Hdoc. rewrite process_lines_app in Hdoc.
  apply bind_return in Hdoc. destruct Hdoc as (d & Hpre & _).
  exists d. split; [exact Hpre | exact (Hinv _ _ Hpre)].
Qed.

Lemma lists_hold_triples_witness :
  obj_to_dict (["v 0 0 0"; "v 1 0 0"] ++ ["v 0 1 0"; "f 1 2 3"])
  = Return (Document (map PyNum.of_Z [0; 0; 0; 1; 0; 0; 0; 1; 0]) [0; 1; 2])
  /\ (len (map PyNum.of_Z [0; 0; 0; 1; 0; 0; 0; 1; 0]) mod 3 = 0
      /\ len [0; 1; 2] mod 3 = 0)
  /\ exists d, obj_to_dict ["v 0 0 0"; "v 1 0 0"] = Return d
               /\ len (vertices d) mod 3 = 0 /\ len (indices d) mod 3 = 0.
Proof.
  split; [vm_compute; reflexivity|].
  apply (lists_hold_triples
           ["v 0 0 0"; "v 1 0 0"] ["v 0 1 0"; "f 1 2 3"]
           (Document (map PyNum.of_Z [0; 0; 0; 1; 0; 0; 0; 1; 0]) [0; 1; 2])).
  vm_compute. reflexivity.
Defined.

(** ** The range of the indices *)

(** Every index of the document is there from the start or is one less
    than a reference read on a face line. *)
Lemma indices_origin (lines : list string) (d doc : document) (i : Z) :
  process_lines d lines = Return doc ->
  In i (indices doc) ->
  In i (indices d)
  \/ exists line operands vertex n,
       In line lines /\ tokens line = "f" :: operands /\ In vertex operands
       /\ PyNum.py_int (vertex_ref vertex) = Some n /\ i = n - 1.
Proof.
  intros Hrun. revert i.
  apply (process_lines_invariant
           (fun doc => forall i, In i (indices doc) ->
              In i (indices d)
              \/ exists line operands vertex n,
                   In line lines /\ tokens line = "f" :: operands
                   /\ In vertex operands
                   /\ PyNum.py_int (vertex_ref vertex) = Some n /\ i = n - 1)
           lines) with (d := d); [| now left | exact Hrun].
  intros d0 d1 line Hin IH Hline i Hi.
  destruct (process_line_cases d0 d1 line Hline)
    as [->|[(ops & vs & _ & _ & _ & ->)|(ops & ixs & Htok & _ & Hixs & ->)]].
  - now apply IH.
  - now apply IH.
  - simpl in Hi. apply in_app_or in Hi. destruct Hi as [Hi|Hi]; [now apply IH|].
    right. destruct (face_indices_origin ops ixs i Hixs Hi) as (v & n & Hv & Hn & ->).
    exists line, ops, v, n. auto.
Qed.

(** The claim of C6 fails: the face line [f 1 2 3] alone converts to the
    indices [0,1,2] of a document that has no vertex. *)
Lemma indices_not_checked :
  obj_to_dict ["f 1 2 3"] = Return (Document [] [0; 1; 2])
  /\ vertex_count (Document [] [0; 1; 2]) = 0
  /\ ~ indices_valid (Document [] [0; 1; 2]).
Proof.
  split; [reflexivity|]. split; [reflexivity|].
  intros H. apply Forall_inv in H. vm_compute in H.
  destruct H as [_ H]. now apply H.
Qed.

(** C6, as the code has it: the conversion checks no reference, and
    every index of the resulting document is one less than a reference
    read on a face line of the input; so every index lies in
    [0, len(vertices)/3 - 1], which is [indices_valid], when every such
    reference lies between 1 and [len(vertices)/3], the number of
    vertices of the resulting document. *)
Theorem indices_valid_of_references (lines : list string) (doc : document) :
  obj_to_dict lines = Return doc ->
  (forall line operands vertex n,
      In line lines -> tokens line = "f" :: operands -> In vertex operands ->
      PyNum.py_int (vertex_ref vertex) = Some n ->
      1 <= n <= vertex_count doc) ->
  indices_valid doc.
Proof.
  intros Hdoc Hrefs. apply List.Forall_forall. intros i Hi.
  destruct (indices_origin lines empty doc i Hdoc Hi)
    as [[]|(line & ops & v & n & Hline & Htok & Hv & Hn & ->)].
  specialize (Hrefs line ops v n Hline Htok Hv Hn). lia.
Qed.

Lemma indices_valid_of_references_witness :
  let lines := ["v 0 0 0"; "v 1 0 0"; "v 0 1 0"; "f 1 2 3"] in
  let doc := Document (map PyNum.of_Z [0; 0; 0; 1; 0; 0; 0; 1; 0]) [0; 1; 2] in
  obj_to_dict lines = Return doc
  /\ (forall line operands vertex n,
        In line lines -> tokens line = "f" :: operands -> In vertex operands ->
        PyNum.py_int (vertex_ref vertex) = Some n ->
        1 <= n <= vertex_count doc)
  /\ indices_valid doc.
Proof.
  intros lines doc.
  assert (Hdoc : obj_to_dict lines = Return doc) by (vm_compute; reflexivity).
  assert (Hrefs : forall line operands vertex n,
             In line lines -> tokens line = "f" :: operands ->
             In vertex operands ->
             PyNum.py_int (vertex_ref vertex) = Some n ->
             1 <= n <= vertex_count doc).
  { intros line operands vertex n Hline Htok Hv Hn.
    change (vertex_count doc) with 3.
    destruct Hline as [<-|[<-|[<-|[<-|[]]]]];
      vm_compute in Htok; try discriminate Htok.
    injection Htok as <-.
    destruct Hv as [<-|[<-|[<-|[]]]];
      vm_compute in Hn; injection Hn as <-; lia. }
  split; [exact Hdoc|]. split; [exact Hrefs|].
  exact (indices_valid_of_references lines doc Hdoc Hrefs).
Defined.

(** ** Operands that are not numbers *)

(** A line with an operand that is not a number raises, whatever the
    document is: the format error when it has not three operands, else
    the error of the first operand that is not a number. *)
Lemma bad_operand_line (line keyword v : string) (operands : list string) :
  tokens line = keyword :: operands ->
  In v operands ->
  (keyword = "v" /\ PyNum.py_float v = None)
  \/ (keyword = "f" /\ PyNum.py_int (vertex_ref v) = None) ->
  exists e, (forall d, process_line d line = Raise e)
            /\ (length operands = 3%nat ->
                exists arg, In arg operands
                  /\ ((keyword = "v" /\ PyNum.py_float arg = None
                       /\ e = FloatValueError arg)
                      \/ (keyword = "f"
                          /\ PyNum.py_int (vertex_ref arg) = None
                          /\ e = IntValueError (vertex_ref arg)))).
Proof.
  intros Htok Hv [[-> Hbad]|[-> Hbad]]; unfold process_line; rewrite Htok.
  - destruct (Nat.eqb_spec (length operands) 3) as [Hlen|Hlen].
    + destruct (floats_raise operands v Hv Hbad) as (arg & Hfl & Harg & Hnone).
      exists (FloatValueError arg). split.
      * intros d. rewrite process_vertex_data, Hlen, Hfl. reflexivity.
      * intros _. exists arg. split; [exact Harg|]. left. auto.
    + exists (ValueError (vertex_message (len operands))). split.
      * intros d. rewrite process_vertex_data.
        apply Nat.eqb_neq in Hlen. now rewrite Hlen.
      * intros H. contradiction.
  - destruct (Nat.eqb_spec (length operands) 3) as [Hlen|Hlen].
    + destruct (face_indices_raise operands v Hv Hbad)
        as (arg & Hfi & Harg & Hnone).
      exists (IntValueError (vertex_ref arg)). split.
      * intros d. rewrite process_face_data, Hlen, Hfi. reflexivity.
      * intros _. exists arg. split; [exact Harg|]. right. auto.
    + exists (ValueError (face_message (len operands))). split.
      * intros d. rewrite process_face_data.
        apply Nat.eqb_neq in Hlen. now rewrite Hlen.
      * intros H. contradiction.
Qed.

(** The claim of C9 fails: the line [v abc] has an operand that [float]
    does not read, and the conversion raises the format error of the
    operand count, not the error of [float]. *)
Lemma bad_number_after_count :
  tokens "v abc" = ["v"; "abc"]
  /\ PyNum.py_float "abc" = None
  /\ obj_to_dict ["v abc"]
     = Raise (ValueError "All vertices must be 3D, at least one vertex is 1D")
  /\ ~ numeric_parse_error
       (ValueError "All vertices must be 3D, at least one vertex is 1D").
Proof. repeat split. intros []. Qed.

(** C9, as the code has it: an input with a [v] line of which an operand
    is not read by [float], or with an [f] line of which the part of an
    operand before the first slash is not read by [int], makes the
    conversion raise: there is no document, no line is skipped.  When
    that line has exactly three operands and the conversion reaches it,
    the error is the one of [float] or [int] on such an operand of the
    line.  (A line with another number of operands raises the format
    error before any operand is read.) *)
Theorem bad_number_aborts
        (lines : list string) (line keyword v : string) (operands : list string) :
  In line lines ->
  tokens line = keyword :: operands ->
  In v operands ->
  (keyword = "v" /\ PyNum.py_float v = None)
  \/ (keyword = "f" /\ PyNum.py_int (vertex_ref v) = None) ->
  (exists e, obj_to_dict lines = Raise e)
  /\ (length operands = 3%nat ->
      forall pre post,
        lines = pre ++ line :: post -> succeeds (obj_to_dict pre) ->
        exists arg,
          In arg operands
          /\ ((keyword = "v" /\ PyNum.py_float arg = None
               /\ obj_to_dict lines = Raise (FloatValueError arg))
              \/ (keyword = "f" /\ PyNum.py_int (vertex_ref arg) = None
                  /\ obj_to_dict lines = Raise (IntValueError (vertex_ref arg))))).
Proof.
  intros Hline Htok Hv Hbad.
  destruct (bad_operand_line line keyword v operands Htok Hv Hbad)
    as (e & Hraise & Hkind).
  split.
  - apply process_lines_fail with line; [exact Hline | eauto].
  - intros Hlen pre post -> Hpre.
    destruct (Hkind Hlen) as (arg & Harg & Hcases).
    assert (Hrun : obj_to_dict (pre ++ line :: post) = Raise e)
      by (apply (raising_line line e pre post Hraise); exact Hpre).
    exists arg. split; [exact Harg|].
    destruct Hcases as [(Hk & Hnone & ->)|(Hk & Hnone & ->)]; [left | right]; auto.
Qed.

Lemma bad_number_aborts_witness :
  In "v 1 x 3" ["v 0 0 0"; "v 1 x 3"; "f 1 1 1"]
  /\ tokens "v 1 x 3" = "v" :: ["1"; "x"; "3"]
  /\ In "x" ["1"; "x"; "3"]
  /\ PyNum.py_float "x" = None
  /\ exists e, obj_to_dict ["v 0 0 0"; "v 1 x 3"; "f 1 1 1"] = Raise e.
Proof.
  assert (Hline : In "v 1 x 3" ["v 0 0 0"; "v 1 x 3"; "f 1 1 1"])
    by (right; left; reflexivity).
  assert (Hv : In "x" ["1"; "x"; "3"]) by (right; left; reflexivity).
  split; [exact Hline|]. split; [reflexivity|]. split; [exact Hv|].
  split; [reflexivity|].
  exact (proj1 (bad_number_aborts
                  ["v 0 0 0"; "v 1 x 3"; "f 1 1 1"] "v 1 x 3" "v" "x"
                  ["1"; "x"; "3"] Hline eq_refl Hv
                  (or_introl (conj eq_refl eq_refl)))).
Defined.

End ObjToJsonFacts.

(** * Properties of the entry point *)

Module MainFacts.
Import ObjToJson Main.

Lemma open_w_world (arg : string) (w w1 : world) (h : handle) :
  open_w arg w = Some (h, w1) ->
  stdin w1 = stdin w /\ stdout w1 = stdout w
  /\ if String.eqb arg "-"
     then h = Std /\ files w1 = files w
     else h = Path arg /\ files w1 = <[arg := File EmptyString]> (files w).
Proof.
  unfold open_w. destruct (String.eqb arg "-").
  - intros [= <- <-]. auto.
  - destruct (files w !! arg) as [[c|]|]; [| discriminate |];
      intros [= <- <-]; auto.
Qed.


(** ** What [json.dump] writes *)

Lemma append_nil_r (s : string) : s +:+ EmptyString = s.
Proof.
  induction s as [|c s IH]; [reflexivity|].
  change (String c s +:+ EmptyString) with (String c (s +:+ EmptyString)).
  now rewrite IH.
Qed.








(** ** The run *)

(** The run whose two files are opened: [text] is what it reads. *)
Lemma main_run (obj json text : string) (w : world) :
  (obj = "-" /\ text = stdin w)
  \/ (obj <> "-" /\ obj = json /\ text = EmptyString
      /\ exists c, files w !! obj = Some (File c))
  \/ (obj <> "-" /\ obj <> json /\ files w !! obj = Some (File text)) ->
  json = "-" \/ files w !! json <> Some Directory ->
  main obj json w =
  match obj_to_dict (readlines text) with
  | Raise e => (with_output json EmptyString w, Uncaught e)
  | Return d =>
      (with_output json (fst (dump d)) w,
       match snd (dump d) with
       | None => Finished
       | Some e => Uncaught e
       end)
  end.
Proof.
  intros Hin Hout.
  assert (Hopen : open_w json w
                  = Some (if String.eqb json "-" then Std else Path json,
                          if String.eqb json "-" then w
                          else World (<[json := File EmptyString]> (files w))
                                     (stdin w) (stdout w))).
  { unfold open_w. destruct (String.eqb_spec json "-") as [_|Hj]; [reflexivity|].
    destruct Hout as [Hout|Hout]; [contradiction|].
    destruct (files w !! json) as [[c|]|]; [reflexivity | now destruct Hout
                                            | reflexivity]. }
  assert (Hread : exists input,
             open_r obj w = Some input
             /\ read input (if String.eqb json "-" then w
                            else World (<[json := File EmptyString]> (files w))
                                       (stdin w) (stdout w)) = text).
  { unfold open_r.
    destruct Hin as [[-> ->]|[(Hobj & <- & -> & c & Hc)|(Hobj & Hne & Hc)]].
    - exists Std. split; [reflexivity|]. now destruct (String.eqb json "-").
    - apply String.eqb_neq in Hobj. rewrite Hobj, Hc. exists (Path obj).
      split; [reflexivity|]. cbn [read files]. now rewrite lookup_insert_eq.
    - apply String.eqb_neq in Hobj. rewrite Hobj, Hc. exists (Path obj).
      split; [reflexivity|]. destruct (String.eqb json "-"); cbn [read files].
      + now rewrite Hc.
      + rewrite lookup_insert_ne by congruence. now rewrite Hc. }
  destruct Hread as (input & Hr & Htext).
  unfold main. rewrite Hr, Hopen, Htext. unfold with_output.
  destruct (obj_to_dict (readlines text)) as [d|e].
  - destruct (dump d) as [written error]. cbn [fst snd].
    destruct (String.eqb json "-"); cbn [write files stdin stdout];
      [reflexivity|].
    now rewrite lookup_insert_eq, insert_insert_eq.
  - destruct (String.eqb json "-"); [|reflexivity].
    rewrite append_nil_r. now destruct w.
Qed.



(** The limit at work: a reference of 4301 digits is refused by [int]; a
    reference of 4300 digits is read, but the index, one less and of 4301
    digits, is not printed, and the run ends with the text up to it in
    the output. *)
Lemma long_index_is_not_printed :
  let nines := Input.repeated "9" in
  let w := World (<["in.obj" := File ("f 1 2 -" +:+ nines 4300%nat)]> ∅)
                 EmptyString EmptyString in
  obj_to_dict ["f 1 2 " +:+ nines 4301%nat]
  = Raise (IntValueError (nines 4301%nat))
  /\ main "in.obj" "out.json" w
     = (World (<["out.json" := File ("{" +:+ quoted "vertices" +:+ ": [], "
                                        +:+ quoted "indices" +:+ ": [0, 1")]>
                 (files w))
              EmptyString EmptyString,
        Uncaught repr_limit_error).
Proof. split; vm_compute; reflexivity. Qed.

End MainFacts.

(** * Further properties of the conversion *)

Module ConversionFacts.
Import ObjToJson ObjToJsonFacts Input.

(** ** What a line does does not depend on the document *)

(** The kinds of lines: passed over, vertex line, face line. *)
Lemma process_line_kinds (d : document) (line : string) :
  (has_keyword "v" line = false /\ has_keyword "f" line = false
   /\ process_line d line = Return d)
  \/ (exists operands,
        tokens line = "v" :: operands
        /\ has_keyword "v" line = true /\ has_keyword "f" line = false
        /\ process_line d line =
           if (length operands =? 3)%nat
           then let! vs := floats operands in
                Return (Document (vertices d ++ vs) (indices d))
           else Raise (ValueError (vertex_message (len operands))))
  \/ (exists operands,
        tokens line = "f" :: operands
        /\ has_keyword "v" line = false /\ has_keyword "f" line = true
        /\ process_line d line =
           if (length operands =? 3)%nat
           then let! ixs := face_indices operands in
                Return (Document (vertices d) (indices d ++ ixs))
           else Raise (ValueError (face_message (len operands)))).
Proof.
  unfold process_line, has_keyword.
  destruct (tokens line) as [|keyword operands]; [left; auto|].
  destruct (String.eqb_spec keyword "v") as [->|Hv].
  - right. left. exists operands. rewrite process_vertex_data. auto.
  - destruct (String.eqb_spec keyword "f") as [->|Hf].
    + right. right. exists operands. rewrite process_face_data. auto.
    + left. rewrite process_other_data by assumption. auto.
Qed.

Lemma process_line_shift (d : document) (line : string) :
  process_line d line =
  (let! r := process_line empty line in
   Return (Document (vertices d ++ vertices r) (indices d ++ indices r))).
Proof.
  destruct (process_line_kinds d line)
    as [(Hv & Hf & Hd)|[(ops & Htok & Hv & Hf & Hd)|(ops & Htok & Hv & Hf & Hd)]];
    destruct (process_line_kinds empty line)
      as [(Hv' & Hf' & He)
         |[(ops' & Htok' & Hv' & Hf' & He)|(ops' & Htok' & Hv' & Hf' & He)]];
    try congruence; rewrite Hd, He.
  - simpl. rewrite !app_nil_r. now destruct d.
  - assert (ops' = ops) as -> by congruence.
    destruct (length ops =? 3)%nat; [|reflexivity].
    destruct (floats ops); simpl; [|reflexivity]. now rewrite app_nil_r.
  - assert (ops' = ops) as -> by congruence.
    destruct (length ops =? 3)%nat; [|reflexivity].
    destruct (face_indices ops); simpl; [|reflexivity]. now rewrite app_nil_r.
Qed.

Lemma process_lines_shift (d : document) (lines : list string) :
  process_lines d lines =
  (let! r := process_lines empty lines in
   Return (Document (vertices d ++ vertices r) (indices d ++ indices r))).
Proof.
  revert d. induction lines as [|line rest IH]; intros d.
  - simpl. rewrite !app_nil_r. now destruct d.
  - cbn [process_lines]. rewrite (process_line_shift d line).
    destruct (process_line empty line) as [r1|e]; [|reflexivity].
    cbn [bind]. rewrite IH, (IH r1).
    destruct (process_lines empty rest) as [r|e]; [|reflexivity].
    cbn [bind vertices indices]. now rewrite !app_assoc.
Qed.

Lemma obj_to_dict_app (first second : list string) :
  obj_to_dict (first ++ second) =
  (let! d1 := obj_to_dict first in
   let! d2 := obj_to_dict second in
   Return (Document (vertices d1 ++ vertices d2) (indices d1 ++ indices d2))).
Proof.
  unfold obj_to_dict. rewrite process_lines_app.
  destruct (process_lines empty first) as [d1|e]; [|reflexivity].
  cbn [bind]. apply process_lines_shift.
Qed.

(** X1: converting two inputs one after the other is converting each and
    putting the vertex lists and the index lists end to end; the error is
    the one of the first input when it has one, else the one of the
    second.  (The indices of the second input are not moved by the number
    of vertices of the first.) *)
Theorem conversion_of_concatenation (first second : list string) :
  obj_to_dict (first ++ second) =
  (let! d1 := obj_to_dict first in
   let! d2 := obj_to_dict second in
   Return (Document (vertices d1 ++ vertices d2) (indices d1 ++ indices d2))).
Proof. exact (obj_to_dict_app first second). Qed.

(** ** Lines convert one by one *)

Lemma conversion_of_cons (line : string) (rest : list string) :
  obj_to_dict (line :: rest) =
  (let! d1 := obj_to_dict [line] in
   let! d2 := obj_to_dict rest in
   Return (Document (vertices d1 ++ vertices d2) (indices d1 ++ indices d2))).
Proof. exact (obj_to_dict_app [line] rest). Qed.

(** X2: an input converts exactly when each of its lines converts on its
    own. *)
Theorem conversion_succeeds_by_lines (lines : list string) :
  succeeds (obj_to_dict lines)
  <-> Forall (fun line => succeeds (obj_to_dict [line])) lines.
Proof.
  induction lines as [|line rest IH].
  - split; [constructor | intros _; now exists empty].
  - rewrite conversion_of_cons. split.
    + intros [d Hd]. apply bind_return in Hd. destruct Hd as (d1 & H1 & Hd).
      apply bind_return in Hd. destruct Hd as (d2 & H2 & _).
      constructor; [now exists d1 | apply IH; now exists d2].
    + intros H. inversion H as [|? ? [d1 H1] Hrest]; subst.
      apply IH in Hrest. destruct Hrest as [d2 H2].
      rewrite H1, H2. simpl. now eexists.
Qed.

(** X3: when the conversion fails, its error is the one of the first line
    that does not convert on its own: the lines before it convert, and
    that line alone raises the same error. *)
Theorem conversion_error_of_first_bad_line (lines : list string) (e : exn) :
  obj_to_dict lines = Raise e ->
  exists pre line post,
    lines = pre ++ line :: post
    /\ succeeds (obj_to_dict pre)
    /\ obj_to_dict [line] = Raise e.
Proof.
  induction lines as [|line rest IH]; [discriminate|].
  rewrite conversion_of_cons.
  destruct (obj_to_dict [line]) as [d1|e1] eqn:H1.
  - cbn [bind]. destruct (obj_to_dict rest) as [d2|e2] eqn:H2; [discriminate|].
    intros [= <-]. destruct (IH eq_refl) as (pre & l & post & -> & Hpre & Hl).
    exists (line :: pre), l, post. split; [reflexivity|]. split; [|exact Hl].
    rewrite conversion_of_cons, H1. destruct Hpre as [dp ->]. simpl. now eexists.
  - intros [= <-]. exists [], line, rest.
    split; [reflexivity|]. split; [now exists empty | exact H1].
Qed.

Lemma conversion_error_of_first_bad_line_witness :
  obj_to_dict ["v 0 0 0"; "# note"; "f 1 2"; "v x"]
  = Raise (ValueError "All faces must be triangles, at least one face has 2 vertices")
  /\ exists pre line post,
       ["v 0 0 0"; "# note"; "f 1 2"; "v x"] = pre ++ line :: post
       /\ succeeds (obj_to_dict pre)
       /\ obj_to_dict [line]
          = Raise (ValueError
                     "All faces must be triangles, at least one face has 2 vertices").
Proof.
  split; [reflexivity|].
  apply (conversion_error_of_first_bad_line
           ["v 0 0 0"; "# note"; "f 1 2"; "v x"]).
  reflexivity.
Defined.

(** ** Vertex lines and face lines *)

Lemma conversion_of_line (line : string) :
  obj_to_dict [line] = process_line empty line.
Proof.
  unfold obj_to_dict. cbn [process_lines].
  now destruct (process_line empty line).
Qed.

(** What a line that converts on its own gives: three vertices, three
    indices, or nothing. *)
Lemma line_result (line : string) (r : document) :
  obj_to_dict [line] = Return r ->
  (has_keyword "v" line = true /\ has_keyword "f" line = false
   /\ length (vertices r) = 3%nat /\ indices r = [])
  \/ (has_keyword "v" line = false /\ has_keyword "f" line = true
      /\ vertices r = [] /\ length (indices r) = 3%nat)
  \/ (has_keyword "v" line = false /\ has_keyword "f" line = false
      /\ r = empty).
Proof.
  rewrite conversion_of_line.
  destruct (process_line_kinds empty line)
    as [(Hv & Hf & ->)|[(ops & _ & Hv & Hf & ->)|(ops & _ & Hv & Hf & ->)]].
  - intros [= <-]. right. right. auto.
  - destruct (Nat.eqb_spec (length ops) 3) as [Hlen|_]; [|discriminate].
    intros H. apply bind_return in H. destruct H as (vs & Hvs & [= <-]).
    left. apply floats_length in Hvs. simpl. rewrite Hvs. auto.
  - destruct (Nat.eqb_spec (length ops) 3) as [Hlen|_]; [|discriminate].
    intros H. apply bind_return in H. destruct H as (ixs & Hixs & [= <-]).
    right. left. apply face_indices_length in Hixs. simpl. rewrite Hixs. auto.
Qed.

(** X4: when the conversion succeeds, the document has three coordinates
    for each line whose first token is [v] and three indices for each line
    whose first token is [f]. *)
Theorem lengths_count_lines (lines : list string) (doc : document) :
  obj_to_dict lines = Return doc ->
  length (vertices doc) = (3 * length (List.filter (has_keyword "v") lines))%nat
  /\ length (indices doc) = (3 * length (List.filter (has_keyword "f") lines))%nat.
Proof.
  revert doc. induction lines as [|line rest IH]; intros doc.
  - intros [= <-]. split; reflexivity.
  - rewrite conversion_of_cons. intros H.
    apply bind_return in H. destruct H as (d1 & H1 & H).
    apply bind_return in H. destruct H as (d2 & H2 & [= <-]).
    destruct (IH d2 H2) as [IHv IHi].
    cbn [List.filter vertices indices]. rewrite !length_app, IHv, IHi.
    destruct (line_result line d1 H1)
      as [(-> & -> & Hv & ->)|[(-> & -> & -> & Hi)|(-> & -> & ->)]];
      simpl length; lia.
Qed.

Lemma lengths_count_lines_witness :
  obj_to_dict ["v 0 0 0"; "f 1 1 1"; "vn 0 0 1"; "v 1 0 0"]
  = Return (Document (map PyNum.of_Z [0; 0; 0; 1; 0; 0]) [0; 0; 0])
  /\ length (map PyNum.of_Z [0; 0; 0; 1; 0; 0])
     = (3 * length (List.filter (has_keyword "v")
                      ["v 0 0 0"; "f 1 1 1"; "vn 0 0 1"; "v 1 0 0"]))%nat
  /\ length [0; 0; 0]
     = (3 * length (List.filter (has_keyword "f")
                      ["v 0 0 0"; "f 1 1 1"; "vn 0 0 1"; "v 1 0 0"]))%nat.
Proof.
  split; [vm_compute; reflexivity|].
  apply (lengths_count_lines
           ["v 0 0 0"; "f 1 1 1"; "vn 0 0 1"; "v 1 0 0"]
           (Document (map PyNum.of_Z [0; 0; 0; 1; 0; 0]) [0; 0; 0])).
  vm_compute. reflexivity.
Defined.

(** X5: when the conversion succeeds, the vertex list is the one of the
    [v] lines alone and the index list the one of the [f] lines alone, so
    the places of the vertex lines among the face lines do not matter:
    the [v] lines followed by the [f] lines convert to the same
    document. *)
Theorem vertex_and_face_lines_apart (lines : list string) (doc : document) :
  obj_to_dict lines = Return doc ->
  obj_to_dict (List.filter (has_keyword "v") lines)
  = Return (Document (vertices doc) [])
  /\ obj_to_dict (List.filter (has_keyword "f") lines)
     = Return (Document [] (indices doc))
  /\ obj_to_dict (List.filter (has_keyword "v") lines
                    ++ List.filter (has_keyword "f") lines)
     = Return doc.
Proof.
  intros Hdoc.
  assert (Hparts :
            obj_to_dict (List.filter (has_keyword "v") lines)
            = Return (Document (vertices doc) [])
            /\ obj_to_dict (List.filter (has_keyword "f") lines)
               = Return (Document [] (indices doc))).
  { revert doc Hdoc. induction lines as [|line rest IH]; intros doc.
    - intros [= <-]. split; reflexivity.
    - rewrite conversion_of_cons. intros H.
      apply bind_return in H. destruct H as (d1 & H1 & H).
      apply bind_return in H. destruct H as (d2 & H2 & [= <-]).
      destruct (IH d2 H2) as [IHv IHf].
      cbn [List.filter vertices indices].
      destruct (line_result line d1 H1)
        as [(-> & -> & Hv & Hi)|[(-> & -> & Hv & Hi)|(-> & -> & ->)]].
      + rewrite conversion_of_cons, H1, IHv, IHf. simpl.
        rewrite !Hi, app_nil_r. split; reflexivity.
      + rewrite conversion_of_cons, H1, IHv, IHf. simpl.
        rewrite !Hv, app_nil_r. split; reflexivity.
      + rewrite IHv, IHf. split; reflexivity. }
  destruct Hparts as [Hv Hf]. split; [exact Hv|]. split; [exact Hf|].
  rewrite obj_to_dict_app, Hv, Hf. simpl.
  rewrite app_nil_r. now destruct doc.
Qed.

Lemma vertex_and_face_lines_apart_witness :
  let lines := ["f 1 2 3"; "v 0 0 0"; "g part"; "v 1 0 0"; "v 0 1 0"] in
  let doc := Document (map PyNum.of_Z [0; 0; 0; 1; 0; 0; 0; 1; 0]) [0; 1; 2] in
  obj_to_dict lines = Return doc
  /\ obj_to_dict ["v 0 0 0"; "v 1 0 0"; "v 0 1 0"; "f 1 2 3"] = Return doc.
Proof.
  intros lines doc.
  assert (Hdoc : obj_to_dict lines = Return doc) by (vm_compute; reflexivity).
  split; [exact Hdoc|].
  exact (proj2 (proj2 (vertex_and_face_lines_apart lines doc Hdoc))).
Defined.

End ConversionFacts.

(** * Properties of the tokens of a line *)

Module TokenFacts.
Import ObjToJson ObjToJsonFacts Input.

Lemma all_chars_app (p : ascii -> bool) (s t : string) :
  all_chars p (s +:+ t) = all_chars p s && all_chars p t.
Proof.
  induction s as [|c s IH]; [reflexivity|]. simpl.
  now rewrite IH, andb_assoc.
Qed.

(** ** Lines with the same tokens *)

Lemma same_tokens_line (line1 line2 : string) :
  tokens line1 = tokens line2 ->
  forall d, process_line d line1 = process_line d line2.
Proof. intros H d. unfold process_line. now rewrite H. Qed.

Lemma same_tokens_map (f : string -> string) (lines : list string) :
  (forall line, tokens (f line) = tokens line) ->
  obj_to_dict (map f lines) = obj_to_dict lines.
Proof.
  intros Hf. unfold obj_to_dict. generalize empty.
  induction lines as [|line rest IH]; intros d; [reflexivity|].
  cbn [map process_lines]. rewrite (same_tokens_line (f line) line (Hf line)).
  destruct (process_line d line); [apply IH | reflexivity].
Qed.

Lemma same_tokens_conversion (line1 line2 : string) (pre post : list string) :
  tokens line1 = tokens line2 ->
  obj_to_dict (pre ++ line1 :: post) = obj_to_dict (pre ++ line2 :: post).
Proof.
  intros H. unfold obj_to_dict. rewrite !process_lines_app.
  destruct (process_lines empty pre); [|reflexivity].
  cbn [bind process_lines]. now rewrite (same_tokens_line line1 line2 H).
Qed.

(** ** Comments *)

(** X6: what follows a [#] on a line is never read: a line with a comment
    added at its end has the tokens of the line without it, and the
    conversion gives the same result. *)
Theorem comment_is_not_read (line comment : string) (pre post : list string) :
  tokens (line +:+ "#" +:+ comment) = tokens line
  /\ obj_to_dict (pre ++ (line +:+ "#" +:+ comment) :: post)
     = obj_to_dict (pre ++ line :: post).
Proof.
  assert (H : tokens (line +:+ "#" +:+ comment) = tokens line).
  { rewrite !tokens_comment.
    change (line +:+ "#" +:+ comment) with (line +:+ String "#" comment).
    now rewrite head_append. }
  split; [exact H | now apply same_tokens_conversion].
Qed.

(** ** Whitespace around a line *)

Lemma lstrip_app_space (ws s : string) :
  all_chars PyStr.isspace ws = true ->
  PyStr.lstrip (ws +:+ s) = PyStr.lstrip s.
Proof.
  induction ws as [|c ws IH]; [reflexivity|]. simpl.
  destruct (PyStr.isspace c); [exact IH | discriminate].
Qed.

Lemma split_spaces (ws : string) :
  all_chars PyStr.isspace ws = true -> PyStr.split ws = [].
Proof.
  induction ws as [|c ws IH]; [reflexivity|]. simpl.
  destruct (PyStr.isspace c); [exact IH | discriminate].
Qed.

Lemma split_app_space (s ws : string) :
  all_chars PyStr.isspace ws = true ->
  PyStr.split (s +:+ ws) = PyStr.split s.
Proof.
  intros Hws. induction s as [|c s IH]; [now apply split_spaces|].
  change (String c s +:+ ws) with (String c (s +:+ ws)).
  rewrite (split_cons c (s +:+ ws)), (split_cons c s), IH.
  destruct (PyStr.isspace c); [reflexivity|].
  destruct s as [|c' s']; [|reflexivity].
  destruct ws as [|c' ws']; [reflexivity|].
  simpl in Hws |- *. destruct (PyStr.isspace c'); [reflexivity | discriminate].
Qed.

Lemma head_spaces (ws : string) :
  all_chars PyStr.isspace ws = true -> PyStr.split1_head "#" ws = ws.
Proof.
  induction ws as [|c ws IH]; [reflexivity|]. simpl.
  destruct (Ascii.eqb c "#") eqn:Hc.
  - now rewrite (hash_not_space c Hc).
  - destruct (PyStr.isspace c); [|discriminate]. intros H. now rewrite IH.
Qed.

Lemma head_app_space (s ws : string) :
  all_chars PyStr.isspace ws = true ->
  PyStr.split1_head "#" (s +:+ ws) = PyStr.split1_head "#" s
  \/ PyStr.split1_head "#" (s +:+ ws) = PyStr.split1_head "#" s +:+ ws.
Proof.
  intros Hws. induction s as [|c s IH].
  - right. simpl. now apply head_spaces.
  - change (String c s +:+ ws) with (String c (s +:+ ws)).
    rewrite (head_cons c (s +:+ ws)), (head_cons c s).
    destruct (Ascii.eqb c "#"); [now left|].
    destruct IH as [->| ->]; [now left | now right].
Qed.

Lemma tokens_outer_space (before line after : string) :
  all_chars PyStr.isspace before = true ->
  all_chars PyStr.isspace after = true ->
  tokens (before +:+ line +:+ after) = tokens line.
Proof.
  intros Hb Ha. transitivity (tokens (line +:+ after)).
  - unfold tokens, PyStr.strip. now rewrite lstrip_app_space.
  - rewrite !tokens_comment.
    destruct (head_app_space line after Ha) as [->| ->];
      [reflexivity | now apply split_app_space].
Qed.

(** X7: whitespace at the two ends of a line (indentation, the line
    terminator, trailing blanks) changes nothing: the line has the same
    tokens with it and without it, and the conversion gives the same
    result. *)
Theorem outer_whitespace_is_dropped
        (before line after : string) (pre post : list string) :
  all_chars PyStr.isspace before = true ->
  all_chars PyStr.isspace after = true ->
  tokens (before +:+ line +:+ after) = tokens line
  /\ obj_to_dict (pre ++ (before +:+ line +:+ after) :: post)
     = obj_to_dict (pre ++ line :: post).
Proof.
  intros Hb Ha.
  pose proof (tokens_outer_space before line after Hb Ha) as H.
  split; [exact H | now apply same_tokens_conversion].
Qed.

Lemma outer_whitespace_is_dropped_witness :
  all_chars PyStr.isspace "    " = true
  /\ all_chars PyStr.isspace (String Main.CR (String Main.LF EmptyString)) = true
  /\ tokens ("    " +:+ "v 1 2 3"
               +:+ String Main.CR (String Main.LF EmptyString))
     = tokens "v 1 2 3".
Proof.
  split; [reflexivity|]. split; [reflexivity|].
  exact (proj1 (outer_whitespace_is_dropped
                  "    " "v 1 2 3"
                  (String Main.CR (String Main.LF EmptyString)) [] []
                  eq_refl eq_refl)).
Defined.

(** ** The tokens are words *)

Lemma head_has_no_hash (s : string) :
  all_chars (fun c => negb (Ascii.eqb c "#")) (PyStr.split1_head "#" s) = true.
Proof.
  induction s as [|c s IH]; [reflexivity|]. simpl.
  destruct (Ascii.eqb c "#") eqn:Hc; [reflexivity|]. simpl. now rewrite Hc.
Qed.

Lemma split_words (q : ascii -> bool) (s : string) :
  all_chars q s = true ->
  Forall (fun w => w <> EmptyString
                   /\ all_chars (fun c => negb (PyStr.isspace c) && q c) w = true)
         (PyStr.split s).
Proof.
  induction s as [|c s IH]; [constructor|].
  simpl all_chars. intros H. apply andb_prop in H. destruct H as [Hc Hs].
  specialize (IH Hs). rewrite split_cons.
  destruct (PyStr.isspace c) eqn:Hsp; [exact IH|].
  assert (Hone : String c EmptyString <> EmptyString
                 /\ all_chars (fun c => negb (PyStr.isspace c) && q c)
                      (String c EmptyString) = true)
    by (split; [discriminate | simpl; now rewrite Hsp, Hc]).
  destruct s as [|c' s']; [now constructor|].
  destruct (PyStr.isspace c'); [now constructor|].
  destruct (PyStr.split (String c' s')) as [|w ws]; [now constructor|].
  inversion IH as [|? ? [_ Hw] Hws]; subst.
  constructor; [|exact Hws].
  split; [discriminate|]. simpl. now rewrite Hsp, Hc, Hw.
Qed.

(** X8: every token of a line is a word: it is not empty, and it holds no
    whitespace and no [#].  (So [float] and [int] are never given a blank
    or an empty operand, but for the empty reference before a slash.) *)
Theorem tokens_are_words (line : string) :
  Forall (fun w => is_word w = true) (tokens line).
Proof.
  rewrite tokens_comment.
  pose proof (split_words _ _ (head_has_no_hash line)) as H.
  induction H as [|w ws [Hne Hw] _ IH]; constructor; [|exact IH].
  destruct w as [|c w]; [now destruct Hne|]. exact Hw.
Qed.

(** ** Words put on a line *)

Lemma split_word (w : string) :
  w <> EmptyString ->
  all_chars (fun c => negb (PyStr.isspace c)) w = true ->
  PyStr.split w = [w].
Proof.
  induction w as [|c w IH]; [now intros []|]. intros _. simpl all_chars.
  intros H. apply andb_prop in H. destruct H as [Hc Hw].
  apply negb_true_iff in Hc. rewrite split_cons, Hc.
  destruct w as [|c' w']; [reflexivity|].
  rewrite IH by (discriminate || exact Hw).
  simpl in Hw. apply andb_prop in Hw. destruct Hw as [Hc' _].
  apply negb_true_iff in Hc'. now rewrite Hc'.
Qed.

Lemma split_word_space (w rest : string) :
  w <> EmptyString ->
  all_chars (fun c => negb (PyStr.isspace c)) w = true ->
  PyStr.split (w +:+ String " " rest) = w :: PyStr.split rest.
Proof.
  induction w as [|c w IH]; [now intros []|]. intros _. simpl all_chars.
  intros H. apply andb_prop in H. destruct H as [Hc Hw].
  apply negb_true_iff in Hc.
  change (String c w +:+ String " " rest) with (String c (w +:+ String " " rest)).
  rewrite split_cons, Hc.
  destruct w as [|c' w'].
  - change (EmptyString +:+ String " " rest) with (String " " rest).
    change (PyStr.isspace " ") with true. cbv iota.
    now rewrite (split_cons " " rest).
  - rewrite IH by (discriminate || exact Hw).
    change (String c' w' +:+ String " " rest)
      with (String c' (w' +:+ String " " rest)).
    simpl in Hw. apply andb_prop in Hw. destruct Hw as [Hc' _].
    apply negb_true_iff in Hc'. now rewrite Hc'.
Qed.

Lemma word_chars (w : string) :
  is_word w = true ->
  w <> EmptyString
  /\ all_chars (fun c => negb (PyStr.isspace c)) w = true
  /\ all_chars (fun c => negb (Ascii.eqb c "#")) w = true.
Proof.
  intros H. split; [now destruct w|].
  assert (Hall : all_chars word_char w = true) by (now destruct w).
  clear H. induction w as [|c w IH]; [now split|].
  simpl in Hall |- *. unfold word_char in Hall at 1.
  apply andb_prop in Hall. destruct Hall as [Hc Hw].
  apply andb_prop in Hc. destruct Hc as [-> ->].
  destruct (IH Hw) as [-> ->]. now split.
Qed.

Lemma head_without_hash (s : string) :
  all_chars (fun c => negb (Ascii.eqb c "#")) s = true ->
  PyStr.split1_head "#" s = s.
Proof.
  induction s as [|c s IH]; [reflexivity|]. simpl.
  destruct (Ascii.eqb c "#"); [discriminate|]. intros H. now rewrite IH.
Qed.

Lemma join_words (ws : list string) :
  Forall (fun w => is_word w = true) ws ->
  all_chars (fun c => negb (Ascii.eqb c "#")) (Main.join " " ws) = true
  /\ PyStr.split (Main.join " " ws) = ws.
Proof.
  induction 1 as [|w ws Hw Hws IH]; [now split|].
  destruct (word_chars w Hw) as (Hne & Hsp & Hh).
  destruct IH as [IHh IHs]. cbn [Main.join].
  destruct ws as [|w' ws']; [split; [exact Hh | now apply split_word]|].
  split.
  - rewrite !all_chars_app, Hh, IHh. reflexivity.
  - change (" " +:+ Main.join " " (w' :: ws'))
      with (String " " (Main.join " " (w' :: ws'))).
    now rewrite split_word_space, IHs.
Qed.

Lemma tokens_join (ws : list string) :
  Forall (fun w => is_word w = true) ws ->
  tokens (Main.join " " ws) = ws.
Proof.
  intros H. destruct (join_words ws H) as [Hh Hs].
  now rewrite tokens_comment, head_without_hash.
Qed.

(** X9: words written on a line with one space between them are read
    back as its tokens, the same words in the same order. *)
Theorem tokens_of_joined_words (ws : list string) :
  Forall (fun w => is_word w = true) ws ->
  tokens (Main.join " " ws) = ws.
Proof. exact (tokens_join ws). Qed.

Lemma tokens_of_joined_words_witness :
  Forall (fun w => is_word w = true) ["f"; "1/1/1"; "2//2"; "-3"]
  /\ tokens (Main.join " " ["f"; "1/1/1"; "2//2"; "-3"])
     = ["f"; "1/1/1"; "2//2"; "-3"].
Proof.
  assert (H : Forall (fun w => is_word w = true) ["f"; "1/1/1"; "2//2"; "-3"])
    by (repeat constructor).
  split; [exact H|].
  exact (tokens_of_joined_words ["f"; "1/1/1"; "2//2"; "-3"] H).
Defined.

End TokenFacts.

(** * References written in decimal *)

Module ReferenceFacts.
Import ObjToJson ObjToJsonFacts Input.

(** ** [int] reads what [str] writes *)

Lemma int_digits_step (acc : Z) (c : ascii) (s : string) :
  PyNum.is_digit c = true ->
  PyNum.int_digits acc (String c s)
  = PyNum.int_digits (10 * acc + Z.of_N (PyNum.digit_val c)) s.
Proof. intros H. simpl. now rewrite H. Qed.

Lemma int_digits_pos (d : Decimal.uint) (p : positive) :
  PyNum.int_digits (Zpos p) (NilEmpty.string_of_uint d)
  = Some (Zpos (Pos.of_uint_acc d p)).
Proof.
  revert p. induction d as [|d IH|d IH|d IH|d IH|d IH|d IH|d IH|d IH|d IH|d IH];
    intros p; [reflexivity|..];
    cbn [NilEmpty.string_of_uint Pos.of_uint_acc];
    rewrite int_digits_step by reflexivity; rewrite <- IH; f_equal;
    match goal with
    | |- context [Z.of_N (PyNum.digit_val ?c)] =>
        let v := eval vm_compute in (Z.of_N (PyNum.digit_val c)) in
        change (Z.of_N (PyNum.digit_val c)) with v
    end; lia.
Qed.

Lemma int_digits_zero (d : Decimal.uint) :
  PyNum.int_digits 0 (NilEmpty.string_of_uint d)
  = Some (Z.of_N (Pos.of_uint d)).
Proof.
  induction d as [|d IH|d IH|d IH|d IH|d IH|d IH|d IH|d IH|d IH|d IH];
    [reflexivity|..];
    cbn [NilEmpty.string_of_uint Pos.of_uint];
    rewrite int_digits_step by reflexivity;
    [exact IH | apply int_digits_pos ..].
Qed.

Lemma int_literal_uint (d : Decimal.uint) :
  d <> Decimal.Nil ->
  PyNum.int_literal (NilEmpty.string_of_uint d) = Some (Z.of_N (Pos.of_uint d))
  /\ PyNum.int_literal (String "-" (NilEmpty.string_of_uint d))
     = Some (- Z.of_N (Pos.of_uint d)).
Proof.
  intros Hd. destruct d; [now destruct Hd|..];
    unfold PyNum.int_literal;
    cbn [NilEmpty.string_of_uint PyNum.take_sign Pos.of_uint];
    match goal with
    | |- context [PyNum.int_digits (Z.of_N (PyNum.digit_val ?c)) ?s] =>
        let v := eval vm_compute in (Z.of_N (PyNum.digit_val c)) in
        change (Z.of_N (PyNum.digit_val c)) with v;
        let b := eval vm_compute in (PyNum.is_digit c) in
        change (PyNum.is_digit c) with b
    end; cbv iota;
    first [rewrite int_digits_zero | rewrite int_digits_pos]; now split.
Qed.

Lemma num_strip_plain (s : string) :
  all_chars (fun c => negb (PyNum.num_space c)) s = true ->
  PyNum.num_strip s = s.
Proof.
  intros H. unfold PyNum.num_strip.
  assert (Hl : PyNum.num_lstrip s = s).
  { destruct s as [|c s]; [reflexivity|]. simpl in H |- *.
    now destruct (PyNum.num_space c). }
  rewrite Hl. induction s as [|c s IH]; [reflexivity|].
  simpl in H. apply andb_prop in H. destruct H as [Hc Hs].
  apply negb_true_iff in Hc. cbn [PyNum.num_rstrip].
  rewrite IH; [| exact Hs |].
  - rewrite Hc. now destruct s.
  - destruct s as [|c' s']; [reflexivity|]. simpl in Hs |- *.
    now destruct (PyNum.num_space c').
Qed.

(** The characters of a decimal numeral. *)
Lemma numeral_chars (n : Z) :
  PyStr.of_int n <> EmptyString
  /\ all_chars (fun c => PyNum.is_digit c || Ascii.eqb c "-") (PyStr.of_int n)
     = true.
Proof.
  assert (Hu : forall d, all_chars (fun c => PyNum.is_digit c || Ascii.eqb c "-")
                           (NilEmpty.string_of_uint d) = true)
    by (induction d; simpl; auto).
  assert (Hne : forall p, NilEmpty.string_of_uint (Pos.to_uint p) <> EmptyString).
  { intros p. pose proof (DecimalPos.Unsigned.to_uint_nonnil p) as Hp.
    destruct (Pos.to_uint p); [now destruct Hp | discriminate ..]. }
  assert (Hz : forall p, NilZero.string_of_uint (Pos.to_uint p)
                         = NilEmpty.string_of_uint (Pos.to_uint p)).
  { intros p. pose proof (DecimalPos.Unsigned.to_uint_nonnil p) as Hp.
    destruct (Pos.to_uint p); [now destruct Hp | reflexivity ..]. }
  unfold PyStr.of_int. destruct n as [|p|p]; cbn [Z.to_int NilZero.string_of_int].
  - split; [discriminate | reflexivity].
  - rewrite Hz. split; [apply Hne | apply Hu].
  - rewrite Hz. split; [discriminate | simpl; apply Hu].
Qed.

Lemma all_chars_impl (p q : ascii -> bool) (s : string) :
  (forall c, p c = true -> q c = true) ->
  all_chars p s = true -> all_chars q s = true.
Proof.
  intros Hpq. induction s as [|c s IH]; [reflexivity|]. simpl.
  intros H. apply andb_prop in H. destruct H as [Hc Hs].
  now rewrite (Hpq c Hc), IH.
Qed.

Lemma numeral_char_is_plain (c : ascii) :
  PyNum.is_digit c || Ascii.eqb c "-" = true ->
  PyNum.num_space c = false /\ word_char c = true /\ Ascii.eqb c "/" = false.
Proof.
  destruct c as [[] [] [] [] [] [] [] []]; vm_compute; intros H;
    repeat split; congruence.
Qed.

Lemma numeral_forms (p : positive) :
  PyStr.of_int (Zpos p) = NilEmpty.string_of_uint (Pos.to_uint p)
  /\ PyStr.of_int (Zneg p) = String "-" (NilEmpty.string_of_uint (Pos.to_uint p)).
Proof.
  assert (Hz : NilZero.string_of_uint (Pos.to_uint p)
               = NilEmpty.string_of_uint (Pos.to_uint p)).
  { pose proof (DecimalPos.Unsigned.to_uint_nonnil p) as Hp.
    destruct (Pos.to_uint p); [now destruct Hp | reflexivity ..]. }
  unfold PyStr.of_int. cbn [Z.to_int NilZero.string_of_int]. now rewrite Hz.
Qed.

Lemma int_literal_of_int (n : Z) : PyNum.int_literal (PyStr.of_int n) = Some n.
Proof.
  destruct n as [|p|p]; [reflexivity|..];
    destruct (numeral_forms p) as [Hpos Hneg];
    destruct (int_literal_uint (Pos.to_uint p)
                (DecimalPos.Unsigned.to_uint_nonnil p)) as [Lpos Lneg].
  - now rewrite Hpos, Lpos, DecimalPos.Unsigned.of_to.
  - now rewrite Hneg, Lneg, DecimalPos.Unsigned.of_to.
Qed.

Lemma count_digits_uint (d : Decimal.uint) :
  PyNum.count_digits (NilEmpty.string_of_uint d)
  = String.length (NilEmpty.string_of_uint d).
Proof.
  induction d; cbn [NilEmpty.string_of_uint String.length PyNum.count_digits];
    [reflexivity|..];
    match goal with
    | |- context [PyNum.is_digit ?c] =>
        change (PyNum.is_digit c) with true
    end; cbv iota; now f_equal.
Qed.

(** The digits [int] counts in a numeral are those [str] counts. *)
Lemma count_digits_of_int (n : Z) :
  PyNum.count_digits (PyStr.of_int n) = String.length (PyStr.of_int (Z.abs n)).
Proof.
  destruct n as [|p|p]; [reflexivity|..];
    destruct (numeral_forms p) as [Hpos Hneg].
  - change (Z.abs (Zpos p)) with (Zpos p). rewrite Hpos.
    apply count_digits_uint.
  - change (Z.abs (Zneg p)) with (Zpos p). rewrite Hneg, Hpos.
    apply count_digits_uint.
Qed.

(** [int] reads back what [str] writes of an integer, unless the integer
    has more digits than the limit. *)
Lemma py_int_of_int (n : Z) :
  PyNum.py_int (PyStr.of_int n) = if PyNum.digits_fit n then Some n else None.
Proof.
  unfold PyNum.py_int, PyNum.digits_fit. cbv zeta. rewrite num_strip_plain.
  - now rewrite int_literal_of_int, count_digits_of_int.
  - apply all_chars_impl with (2 := proj2 (numeral_chars n)).
    intros c Hc. now rewrite (proj1 (numeral_char_is_plain c Hc)).
Qed.

Lemma numeral_is_word (n : Z) : is_word (PyStr.of_int n) = true.
Proof.
  destruct (numeral_chars n) as [Hne Hall].
  assert (H : all_chars word_char (PyStr.of_int n) = true).
  { apply all_chars_impl with (2 := Hall).
    intros c Hc. exact (proj1 (proj2 (numeral_char_is_plain c Hc))). }
  unfold is_word. destruct (PyStr.of_int n); [now destruct Hne | exact H].
Qed.

Lemma face_index_of_int (n : Z) :
  face_index (PyStr.of_int n)
  = if PyNum.digits_fit n then Return (n - 1)
    else Raise (IntValueError (PyStr.of_int n)).
Proof.
  rewrite face_index_head.
  assert (H : PyStr.split1_head "/" (PyStr.of_int n) = PyStr.of_int n).
  { pose proof (proj2 (numeral_chars n)) as Hall.
    induction (PyStr.of_int n) as [|c s IH]; [reflexivity|].
    simpl in Hall |- *. apply andb_prop in Hall. destruct Hall as [Hc Hs].
    rewrite (proj2 (proj2 (numeral_char_is_plain c Hc))). now rewrite IH. }
  rewrite H, py_int_of_int. now destruct (PyNum.digits_fit n).
Qed.

(** X10: a reference is refused for the number of its digits only, never
    for its value: the face line of three integers written in decimal,
    zero and negative ones too, appends each of them less one to the
    index list (so an index can be negative) when each has at most 4300
    digits, the limit of [int]; else it raises the error of [int] on the
    first of them that has more. *)
Theorem any_integer_reference (a b c : Z) (d : document) :
  process_line d (Main.join " " ["f"; PyStr.of_int a; PyStr.of_int b; PyStr.of_int c])
  = if negb (PyNum.digits_fit a) then Raise (IntValueError (PyStr.of_int a))
    else if negb (PyNum.digits_fit b) then Raise (IntValueError (PyStr.of_int b))
    else if negb (PyNum.digits_fit c) then Raise (IntValueError (PyStr.of_int c))
    else Return (Document (vertices d) (indices d ++ [a - 1; b - 1; c - 1])).
Proof.
  unfold process_line. rewrite TokenFacts.tokens_join.
  - rewrite process_face_data. cbn [length Nat.eqb face_indices].
    rewrite !face_index_of_int.
    destruct (PyNum.digits_fit a); [|reflexivity].
    destruct (PyNum.digits_fit b); [|reflexivity].
    now destruct (PyNum.digits_fit c).
  - repeat constructor; apply numeral_is_word.
Qed.

End ReferenceFacts.

(** * Properties of the run on files *)

Module FileFacts.
Import ObjToJson ObjToJsonFacts Input Main.

(** ** Line terminators *)

Lemma line_char_spec (c : ascii) :
  line_char c = true -> Ascii.eqb c LF = false /\ Ascii.eqb c CR = false.
Proof.
  unfold line_char. intros H. apply andb_prop in H. destruct H as [H1 H2].
  now apply negb_true_iff in H1, H2.
Qed.

Lemma readlines_char (c : ascii) (rest : string) :
  line_char c = true ->
  readlines (String c rest) = PyStr.cons_char c (readlines rest).
Proof.
  intros H. destruct (line_char_spec c H) as [Hlf Hcr].
  cbn [readlines]. now rewrite Hlf, Hcr.
Qed.

Lemma readlines_lf (line rest : string) :
  all_chars line_char line = true ->
  readlines (line +:+ String LF rest)
  = (line +:+ String LF EmptyString) :: readlines rest.
Proof.
  induction line as [|c line IH]; [reflexivity|].
  simpl all_chars. intros H. apply andb_prop in H. destruct H as [Hc Hl].
  change (String c line +:+ String LF rest)
    with (String c (line +:+ String LF rest)).
  now rewrite readlines_char, IH.
Qed.

Lemma readlines_crlf (line rest : string) :
  all_chars line_char line = true ->
  readlines (line +:+ String CR (String LF rest))
  = (line +:+ String LF EmptyString) :: readlines rest.
Proof.
  induction line as [|c line IH]; [reflexivity|].
  simpl all_chars. intros H. apply andb_prop in H. destruct H as [Hc Hl].
  change (String c line +:+ String CR (String LF rest))
    with (String c (line +:+ String CR (String LF rest))).
  now rewrite readlines_char, IH.
Qed.

Lemma readlines_cr (line rest : string) :
  all_chars line_char line = true ->
  match rest with
  | String c _ => Ascii.eqb c LF = false
  | EmptyString => True
  end ->
  readlines (line +:+ String CR rest)
  = (line +:+ String LF EmptyString) :: readlines rest.
Proof.
  intros Hline Hrest. induction line as [|c line IH].
  - change (EmptyString +:+ String CR rest) with (String CR rest).
    cbn [readlines]. change (Ascii.eqb CR LF) with false.
    change (Ascii.eqb CR CR) with true. cbv iota.
    destruct rest as [|c' rest']; [reflexivity|]. now rewrite Hrest.
  - simpl in Hline. apply andb_prop in Hline. destruct Hline as [Hc Hl].
    change (String c line +:+ String CR rest)
      with (String c (line +:+ String CR rest)).
    now rewrite readlines_char, IH.
Qed.

Lemma terminated_cr_start (lines : list string) :
  Forall (fun line => all_chars line_char line = true) lines ->
  match terminated (String CR EmptyString) lines with
  | String c _ => Ascii.eqb c LF = false
  | EmptyString => True
  end.
Proof.
  intros H. destruct H as [|line rest Hline _]; [exact I|].
  cbn [terminated]. destruct line as [|c line]; [reflexivity|].
  simpl in Hline |- *. apply andb_prop in Hline.
  exact (proj1 (line_char_spec c (proj1 Hline))).
Qed.

Lemma readlines_terminated (term : string) (lines : list string) :
  In term [String LF EmptyString; String CR (String LF EmptyString);
           String CR EmptyString] ->
  Forall (fun line => all_chars line_char line = true) lines ->
  readlines (terminated term lines)
  = map (fun line => line +:+ String LF EmptyString) lines.
Proof.
  intros Hterm Hlines.
  induction Hlines as [|line rest Hline Hrest IH]; [reflexivity|].
  cbn [terminated map]. rewrite <- IH.
  destruct Hterm as [<-|[<-|[<-|[]]]].
  - now apply readlines_lf.
  - now apply readlines_crlf.
  - apply readlines_cr; [exact Hline | now apply terminated_cr_start].
Qed.

(** X11: the line terminator of the input file does not matter: a file
    whose lines end with a line feed, with a carriage return and a line
    feed, or with a carriage return yields these lines, each with one
    line feed at its end, and converts as the lines themselves do. *)
Theorem line_terminator_does_not_matter (term : string) (lines : list string) :
  In term [String LF EmptyString; String CR (String LF EmptyString);
           String CR EmptyString] ->
  Forall (fun line => all_chars line_char line = true) lines ->
  readlines (terminated term lines)
  = map (fun line => line +:+ String LF EmptyString) lines
  /\ obj_to_dict (readlines (terminated term lines)) = obj_to_dict lines.
Proof.
  intros Hterm Hlines. rewrite (readlines_terminated term lines Hterm Hlines).
  split; [reflexivity|].
  apply TokenFacts.same_tokens_map. intros line.
  exact (TokenFacts.tokens_outer_space
           EmptyString line (String LF EmptyString) eq_refl eq_refl).
Qed.

Lemma line_terminator_does_not_matter_witness :
  let crlf := String CR (String LF EmptyString) in
  In crlf [String LF EmptyString; crlf; String CR EmptyString]
  /\ Forall (fun line => all_chars line_char line = true) ["v 1 2 3"; "f 1 1 1"]
  /\ obj_to_dict (readlines ("v 1 2 3" +:+ crlf +:+ "f 1 1 1" +:+ crlf))
     = obj_to_dict ["v 1 2 3"; "f 1 1 1"].
Proof.
  intros crlf.
  assert (Hterm : In crlf [String LF EmptyString; crlf; String CR EmptyString])
    by (right; left; reflexivity).
  assert (Hlines : Forall (fun line => all_chars line_char line = true)
                          ["v 1 2 3"; "f 1 1 1"])
    by (repeat constructor).
  split; [exact Hterm|]. split; [exact Hlines|].
  exact (proj2 (line_terminator_does_not_matter
                  crlf ["v 1 2 3"; "f 1 1 1"] Hterm Hlines)).
Defined.

(** ** Runs on files *)

(** The run on two different files that can be opened. *)
Lemma main_on_files (obj json content : string) (w : world) :
  obj <> "-" -> json <> "-" -> obj <> json ->
  files w !! obj = Some (File content) ->
  files w !! json <> Some Directory ->
  main obj json w =
  match obj_to_dict (readlines content) with
  | Raise e =>
      (World (<[json := File EmptyString]> (files w)) (stdin w) (stdout w),
       Uncaught e)
  | Return d =>
      (World (<[json := File (fst (dump d))]> (files w)) (stdin w) (stdout w),
       match snd (dump d) with
       | None => Finished
       | Some e => Uncaught e
       end)
  end.
Proof.
  intros Hobj Hjson Hne Hin Hout.
  rewrite (MainFacts.main_run obj json content w); [| auto | auto].
  unfold with_output. apply String.eqb_neq in Hjson. now rewrite Hjson.
Qed.

(** X12: converting a file onto itself loses it: the output is opened,
    and so emptied, before the input is read, so the run reads no line,
    finishes, and leaves the text of the empty document in the file. *)
Theorem conversion_in_place_loses_input (path content : string) (w : world) :
  path <> "-" ->
  files w !! path = Some (File content) ->
  main path path w
  = (World (<[path := File (dumps empty)]> (files w)) (stdin w) (stdout w),
     Finished).
Proof.
  intros Hpath Hin.
  rewrite (MainFacts.main_run path path EmptyString w).
  - cbn [readlines obj_to_dict process_lines].
    change (dump empty) with (dumps empty, @None exn). cbn [fst snd].
    unfold with_output. apply String.eqb_neq in Hpath. now rewrite Hpath.
  - right. left. eauto.
  - right. rewrite Hin. discriminate.
Qed.

Lemma conversion_in_place_loses_input_witness :
  let w := World (<["mesh.obj" := File "v 1 2 3"]> ∅) EmptyString EmptyString in
  "mesh.obj" <> "-"
  /\ files w !! "mesh.obj" = Some (File "v 1 2 3")
  /\ files (fst (main "mesh.obj" "mesh.obj" w)) !! "mesh.obj"
     = Some (File ("{" +:+ quoted "vertices" +:+ ": [], "
                       +:+ quoted "indices" +:+ ": []}"))
  /\ snd (main "mesh.obj" "mesh.obj" w) = Finished.
Proof.
  intros w.
  assert (Hpath : "mesh.obj" <> "-") by discriminate.
  assert (Hin : files w !! "mesh.obj" = Some (File "v 1 2 3"))
    by (vm_compute; reflexivity).
  split; [exact Hpath|]. split; [exact Hin|].
  rewrite (conversion_in_place_loses_input "mesh.obj" "v 1 2 3" w Hpath Hin).
  split; [vm_compute; reflexivity | reflexivity].
Defined.

(** X13: running the conversion again changes nothing: with an input and
    an output that are two different files, a second run ends as the
    first did and leaves every file as the first run left it. *)
Theorem second_run_changes_nothing (obj json : string) (w : world) :
  obj <> "-" -> json <> "-" -> obj <> json ->
  main obj json (fst (main obj json w)) = main obj json w.
Proof.
  intros Hobj Hjson Hne.
  assert (Hfail : forall w0,
             (forall c, files w0 !! obj <> Some (File c))
             \/ files w0 !! json = Some Directory ->
             main obj json w0 = (w0, ArgumentError)).
  { intros w0 H. unfold main, open_r, open_w.
    pose proof Hobj as Hobj'. pose proof Hjson as Hjson'.
    apply String.eqb_neq in Hobj', Hjson'. rewrite Hobj', Hjson'.
    destruct (files w0 !! obj) as [[c|]|] eqn:Hc; [|reflexivity..].
    destruct H as [H|H]; [now destruct (H c) | now rewrite H]. }
  assert (Hagain : forall w0,
             main obj json w0 = (w0, ArgumentError) ->
             main obj json (fst (main obj json w0)) = main obj json w0).
  { intros w0 H. now rewrite H. }
  destruct (files w !! obj) as [[content|]|] eqn:Hin;
    [| apply Hagain, Hfail; left; intros c; rewrite Hin; discriminate ..].
  destruct (files w !! json) as [[old|]|] eqn:Hout;
    [| apply Hagain, Hfail; right; exact Hout |].
  - rewrite (main_on_files obj json content w) by congruence.
    destruct (obj_to_dict (readlines content)) as [d|e] eqn:Hrun; cbn [fst];
      (rewrite (main_on_files obj json content);
       [ | assumption .. | | ]; cbn [files stdin stdout];
       [ now rewrite Hrun, insert_insert_eq
       | now rewrite lookup_insert_ne
       | now rewrite lookup_insert_eq ]).
  - rewrite (main_on_files obj json content w) by congruence.
    destruct (obj_to_dict (readlines content)) as [d|e] eqn:Hrun; cbn [fst];
      (rewrite (main_on_files obj json content);
       [ | assumption .. | | ]; cbn [files stdin stdout];
       [ now rewrite Hrun, insert_insert_eq
       | now rewrite lookup_insert_ne
       | now rewrite lookup_insert_eq ]).
Qed.

Lemma second_run_changes_nothing_witness :
  let w := World (<["in.obj" := File "v 1 2 3"]> ∅) EmptyString EmptyString in
  "in.obj" <> "-" /\ "out.json" <> "-" /\ "in.obj" <> "out.json"
  /\ main "in.obj" "out.json" (fst (main "in.obj" "out.json" w))
     = main "in.obj" "out.json" w.
Proof.
  intros w.
  assert (H1 : "in.obj" <> "-") by discriminate.
  assert (H2 : "out.json" <> "-") by discriminate.
  assert (H3 : "in.obj" <> "out.json") by discriminate.
  split; [exact H1|]. split; [exact H2|]. split; [exact H3|].
  exact (second_run_changes_nothing "in.obj" "out.json" w H1 H2 H3).
Defined.

End FileFacts.

(** * The lines that are accepted *)

Module LineFacts.
Import ObjToJson ObjToJsonFacts Input.

Lemma floats_succeeds (operands : list string) :
  succeeds (floats operands)
  <-> Forall (fun v => PyNum.py_float v <> None) operands.
Proof.
  induction operands as [|v rest IH]; simpl.
  - split; [constructor | intros _; now eexists].
  - destruct (PyNum.py_float v) as [x|] eqn:Hv.
    + split.
      * intros [vs H]. apply bind_return in H. destruct H as (xs & Hxs & _).
        constructor; [now rewrite Hv | apply IH; now exists xs].
      * intros H. inversion H as [|? ? _ Hrest]; subst.
        apply IH in Hrest. destruct Hrest as [xs ->]. simpl. now eexists.
    + split.
      * intros [vs H]. discriminate.
      * intros H. inversion H as [|? ? Hnone _]; subst. now rewrite Hv in Hnone.
Qed.

Lemma face_indices_succeeds (operands : list string) :
  succeeds (face_indices operands)
  <-> Forall (fun v => PyNum.py_int (vertex_ref v) <> None) operands.
Proof.
  induction operands as [|v rest IH]; simpl.
  - split; [constructor | intros _; now eexists].
  - unfold face_index at 1.
    destruct (PyNum.py_int (vertex_ref v)) as [n|] eqn:Hv; cbn [bind].
    + split.
      * intros [ixs H]. apply bind_return in H. destruct H as (r & Hr & _).
        constructor; [now rewrite Hv | apply IH; now exists r].
      * intros H. inversion H as [|? ? _ Hrest]; subst.
        apply IH in Hrest. destruct Hrest as [r ->]. simpl. now eexists.
    + split.
      * intros [ixs H]. discriminate.
      * intros H. inversion H as [|? ? Hnone _]; subst. now rewrite Hv in Hnone.
Qed.

Lemma succeeds_bind_return {A B} (r : result A) (f : A -> B) :
  succeeds (let! a := r in Return (f a)) <-> succeeds r.
Proof.
  destruct r as [a|e]; simpl.
  - split; intros _; now eexists.
  - split; intros [x H]; discriminate.
Qed.

(** X14: the lines that convert: a line without token, a line whose first
    token is neither [v] nor [f], a [v] line of three operands that
    [float] reads, and an [f] line of three operands of which [int] reads
    the part before the first slash; no other line does. *)
Theorem accepted_lines (line : string) :
  succeeds (obj_to_dict [line])
  <-> match tokens line with
      | [] => True
      | keyword :: operands =>
          (keyword = "v" ->
           length operands = 3%nat
           /\ Forall (fun v => PyNum.py_float v <> None) operands)
          /\ (keyword = "f" ->
              length operands = 3%nat
              /\ Forall (fun v => PyNum.py_int (vertex_ref v) <> None) operands)
      end.
Proof.
  rewrite ConversionFacts.conversion_of_line. unfold process_line.
  destruct (tokens line) as [|keyword operands].
  - split; [auto | intros _; now eexists].
  - destruct (String.eqb_spec keyword "v") as [->|Hv].
    + rewrite process_vertex_data.
      destruct (Nat.eqb_spec (length operands) 3) as [Hlen|Hlen].
      * rewrite succeeds_bind_return, floats_succeeds. split.
        -- intros H. split; [auto | discriminate].
        -- intros [H _]. now apply H.
      * split; [intros [d H]; discriminate|].
        intros [H _]. destruct (H eq_refl) as [Hl _]. contradiction.
    + destruct (String.eqb_spec keyword "f") as [->|Hf].
      * rewrite process_face_data.
        destruct (Nat.eqb_spec (length operands) 3) as [Hlen|Hlen].
        -- rewrite succeeds_bind_return, face_indices_succeeds. split.
           ++ intros H. split; [discriminate | auto].
           ++ intros [_ H]. now apply H.
        -- split; [intros [d H]; discriminate|].
           intros [_ H]. destruct (H eq_refl) as [Hl _]. contradiction.
      * rewrite process_other_data by assumption.
        split; [intros _; split; intros; contradiction | intros _; now eexists].
Qed.

End LineFacts.

(** * Coordinates written as integers *)

Module CoordinateFacts.
Import ObjToJson ObjToJsonFacts Input.

Lemma take_digits_step (acc : N) (cnt : nat) (c : ascii) (s : string) :
  PyNum.is_digit c = true ->
  PyNum.take_digits acc cnt (String c s)
  = PyNum.take_digits (10 * acc + PyNum.digit_val c)%N (S cnt) s.
Proof. intros H. simpl. now rewrite H. Qed.

Ltac digit_value :=
  match goal with
  | |- context [PyNum.digit_val ?c] =>
      let v := eval vm_compute in (PyNum.digit_val c) in
      change (PyNum.digit_val c) with v
  end.

Lemma take_digits_pos (d : Decimal.uint) (p : positive) (cnt : nat) :
  PyNum.take_digits (Npos p) cnt (NilEmpty.string_of_uint d)
  = (Npos (Pos.of_uint_acc d p),
     (cnt + String.length (NilEmpty.string_of_uint d))%nat, EmptyString).
Proof.
  revert p cnt.
  induction d as [|d IH|d IH|d IH|d IH|d IH|d IH|d IH|d IH|d IH|d IH];
    intros p cnt;
    cbn [NilEmpty.string_of_uint Pos.of_uint_acc String.length];
    [now rewrite Nat.add_0_r|..];
    rewrite take_digits_step by reflexivity; digit_value;
    rewrite Nat.add_succ_r, <- Nat.add_succ_l, <- IH; f_equal; lia.
Qed.

Lemma take_digits_zero (d : Decimal.uint) (cnt : nat) :
  PyNum.take_digits 0 cnt (NilEmpty.string_of_uint d)
  = (Pos.of_uint d,
     (cnt + String.length (NilEmpty.string_of_uint d))%nat, EmptyString).
Proof.
  revert cnt.
  induction d as [|d IH|d IH|d IH|d IH|d IH|d IH|d IH|d IH|d IH|d IH];
    intros cnt;
    cbn [NilEmpty.string_of_uint Pos.of_uint String.length];
    [now rewrite Nat.add_0_r|..];
    rewrite take_digits_step by reflexivity; digit_value;
    rewrite Nat.add_succ_r, <- Nat.add_succ_l;
    [exact (IH (S cnt)) | exact (take_digits_pos d _ (S cnt)) ..].
Qed.

Lemma numeral_char_facts (c : ascii) :
  PyNum.is_digit c || Ascii.eqb c "-" = true -> Ascii.eqb c "_" = false.
Proof.
  destruct c as [[] [] [] [] [] [] [] []]; vm_compute; congruence.
Qed.

Lemma take_sign_digit (c : ascii) (s : string) :
  PyNum.is_digit c = true -> PyNum.take_sign (String c s) = (false, String c s).
Proof.
  destruct c as [[] [] [] [] [] [] [] []]; vm_compute; congruence.
Qed.

Lemma uint_first (d : Decimal.uint) :
  d <> Decimal.Nil ->
  exists c s, NilEmpty.string_of_uint d = String c s /\ PyNum.is_digit c = true.
Proof.
  intros Hd. destruct d; [now destruct Hd|..]; simpl; eauto.
Qed.

Lemma drop_underscores_plain (prev : ascii) (s : string) :
  Ascii.eqb prev "_" = false ->
  all_chars (fun c => PyNum.is_digit c || Ascii.eqb c "-") s = true ->
  PyNum.drop_underscores prev s = Some s.
Proof.
  revert prev. induction s as [|c s IH]; intros prev Hprev; simpl.
  - now rewrite Hprev.
  - intros H. apply andb_prop in H. destruct H as [Hc Hs].
    pose proof (numeral_char_facts c Hc) as Hus.
    now rewrite Hus, Hprev, (IH c Hus Hs).
Qed.

Lemma decimal_literal_uint (d : Decimal.uint) :
  d <> Decimal.Nil ->
  PyNum.decimal_literal (NilEmpty.string_of_uint d)
  = Some (PyNum.of_decimal false (Pos.of_uint d) 0)
  /\ PyNum.decimal_literal (String "-" (NilEmpty.string_of_uint d))
     = Some (PyNum.of_decimal true (Pos.of_uint d) 0).
Proof.
  intros Hd. destruct (uint_first d Hd) as (c & s & Heq & Hc).
  assert (Hlen : (0 + String.length (NilEmpty.string_of_uint d) + 0 =? 0)%nat
                 = false) by now rewrite Heq.
  unfold PyNum.decimal_literal. split.
  - rewrite Heq, (take_sign_digit c s Hc), <- Heq, take_digits_zero.
    now rewrite Hlen.
  - cbn [PyNum.take_sign]. rewrite take_digits_zero. now rewrite Hlen.
Qed.

Lemma of_decimal_integer (neg : bool) (p : positive) :
  PyNum.of_decimal neg (Npos p) 0
  = PyNum.of_Z (if neg then Zneg p else Zpos p).
Proof.
  unfold PyNum.of_decimal, PyNum.round_decimal, PyNum.of_Z, binary_normalize.
  change (0 <=? 0) with true. change (Z.to_pos (10 ^ 0)) with 1%positive.
  cbv iota. rewrite Pos.mul_1_r. now destruct neg.
Qed.

Lemma py_float_of_int (n : Z) :
  PyNum.py_float (PyStr.of_int n) = Some (PyNum.of_Z n).
Proof.
  destruct (ReferenceFacts.numeral_chars n) as [_ Hall].
  unfold PyNum.py_float, PyNum.float_literal.
  rewrite ReferenceFacts.num_strip_plain.
  - rewrite drop_underscores_plain by (reflexivity || exact Hall).
    assert (Hz : forall p, NilZero.string_of_uint (Pos.to_uint p)
                           = NilEmpty.string_of_uint (Pos.to_uint p)).
    { intros p. pose proof (DecimalPos.Unsigned.to_uint_nonnil p) as Hp.
      destruct (Pos.to_uint p); [now destruct Hp | reflexivity ..]. }
    unfold PyStr.of_int.
    destruct n as [|p|p]; cbn [Z.to_int NilZero.string_of_int];
      [reflexivity | rewrite Hz ..];
      destruct (decimal_literal_uint (Pos.to_uint p)
                  (DecimalPos.Unsigned.to_uint_nonnil p)) as [Hpos Hneg].
    + now rewrite Hpos, DecimalPos.Unsigned.of_to, of_decimal_integer.
    + now rewrite Hneg, DecimalPos.Unsigned.of_to, of_decimal_integer.
  - apply ReferenceFacts.all_chars_impl with (2 := Hall).
    intros c Hc.
    now rewrite (proj1 (ReferenceFacts.numeral_char_is_plain c Hc)).
Qed.

Lemma floats_of_ints (ns : list Z) :
  floats (map PyStr.of_int ns) = Return (map PyNum.of_Z ns).
Proof.
  induction ns as [|n ns IH]; [reflexivity|].
  cbn [map floats]. now rewrite py_float_of_int, IH.
Qed.

(** X15: a vertex line of three integers written in decimal appends the
    three floats of these integers, in the order of the line, to the
    vertex list, and leaves the index list as it is; the float of an
    integer is the double nearest to it, infinite beyond the range of the
    doubles. *)
Theorem integer_coordinates (x y z : Z) (d : document) :
  process_line d (Main.join " " ["v"; PyStr.of_int x; PyStr.of_int y; PyStr.of_int z])
  = Return (Document
              (vertices d ++ [PyNum.of_Z x; PyNum.of_Z y; PyNum.of_Z z])
              (indices d)).
Proof.
  unfold process_line. rewrite TokenFacts.tokens_join.
  - rewrite process_vertex_data. cbn [length Nat.eqb].
    change [PyStr.of_int x; PyStr.of_int y; PyStr.of_int z]
      with (map PyStr.of_int [x; y; z]).
    now rewrite floats_of_ints.
  - repeat constructor; apply ReferenceFacts.numeral_is_word.
Qed.

End CoordinateFacts.
